(** * Bookmark tree transformation scripts: a shallow embedding

    The three scripts of the repository are embedded as Rocq functions:

    - [scripts/fix_nested_folders.py]   : [flatten_nested_folders]
    - [scripts/analyze_bookmarks.py]    : [extract_domain], the domain
      counter and the hosting-platform rollup
    - [archive/scripts/export_to_safari.py] : [get_children], [cnt], [root]

    Python values are a small universe of property-list / JSON values,
    exceptions are an explicit result type, dictionaries are association
    lists in insertion order, and the [Counter] of the analysis script is a
    finite map. *)

From Stdlib Require Import String Ascii ZArith List Bool Lia.
From stdpp Require Import gmap strings list fin_maps.

Open Scope string_scope.
Open Scope list_scope.

(** ** Part I. Definitions *)

(** *** Python values and exceptions *)

Module Py.

#[warnings="-register-all"]
Inductive value : Type :=
| VNone
| VBool (b : bool)
| VInt (n : Z)
| VStr (s : string)
| VList (l : list value)
| VDict (d : list (string * value)).

(** A [dict] keeps its entries in insertion order; keys of a well-formed
    dictionary are pairwise distinct. *)
Abbreviation dict := (list (string * value)).

Inductive exn : Set :=
| TypeError | KeyError | ValueError | AttributeError | RecursionError.

Inductive result (A : Type) : Type :=
| Ok (a : A)
| Raise (e : exn).
Arguments Ok {A} a.
Arguments Raise {A} e.

#[global] Instance result_bind : MBind result := fun A B k r =>
  match r with Ok a => k a | Raise e => Raise e end.
#[global] Instance result_ret : MRet result := fun A a => Ok a.

(** [try: body / except: handler] with a bare [except]. *)
Definition try_except {A} (body : result A) (handler : exn -> result A)
  : result A :=
  match body with Ok a => Ok a | Raise e => handler e end.

Definition is_dict (v : value) : bool :=
  match v with VDict _ => true | _ => false end.

(** [d.get(key)] as an option, [d.get(key, dflt)], [key in d] and
    [d[key] = v]. *)
Fixpoint dict_get (d : dict) (key : string) : option value :=
  match d with
  | [] => None
  | (k, v) :: d' => if String.eqb k key then Some v else dict_get d' key
  end.

Definition dict_get_default (d : dict) (key : string) (dflt : value)
  : value :=
  match dict_get d key with Some v => v | None => dflt end.

Definition dict_mem (d : dict) (key : string) : bool :=
  match dict_get d key with Some _ => true | None => false end.

Fixpoint dict_set (d : dict) (key : string) (v : value) : dict :=
  match d with
  | [] => [(key, v)]
  | (k, w) :: d' =>
      if String.eqb k key then (k, v) :: d' else (k, w) :: dict_set d' key v
  end.

(** Lookup in continuation style: [with_key key k dflt d] is [k v] when
    [d] maps [key] to [v] and [dflt] otherwise.  Recursive functions on
    [value] go through it so that their calls stay on sub-values. *)
Section WithKey.
Context {A : Type} (key : string) (k : value -> A) (dflt : A).
Fixpoint with_key (d : dict) : A :=
  match d with
  | [] => dflt
  | (k', v) :: d' => if String.eqb k' key then k v else with_key d'
  end.
End WithKey.

(** The loop [for x in l: out.extend(f(x))], stopping at the first
    exception. *)
Section ForEach.
Context {A B : Type} (f : A -> result (list B)).
Fixpoint for_each (l : list A) : result (list B) :=
  match l with
  | [] => Ok []
  | x :: l' => ys ← f x; zs ← for_each l'; Ok (ys ++ zs)
  end.
End ForEach.

Definition one {A B} (f : A -> result B) (x : A) : result (list B) :=
  y ← f x; Ok [y].

(** The characters of a string, each as a one-character string. *)
Definition chars (s : string) : list value :=
  map (fun c => VStr (String c EmptyString)) (list_ascii_of_string s).

Definition keys (d : dict) : list value := map (fun kv => VStr (fst kv)) d.

(** [iter(v)]: lists yield their elements, strings their characters,
    dictionaries their keys; the other values are not iterable. *)
Definition py_iter (v : value) : result (list value) :=
  match v with
  | VList l => Ok l
  | VStr s => Ok (chars s)
  | VDict d => Ok (keys d)
  | VNone | VBool _ | VInt _ => Raise TypeError
  end.

(** [x == y]. *)
Fixpoint py_eq (x y : value) : bool :=
  match x, y with
  | VNone, VNone => true
  | VBool a, VBool b => Bool.eqb a b
  | VBool a, VInt n | VInt n, VBool a => Z.eqb n (Z.b2z a)
  | VInt a, VInt b => Z.eqb a b
  | VStr a, VStr b => String.eqb a b
  | VList l, VList l' =>
      (fix all2 (l l' : list value) : bool :=
         match l, l' with
         | [], [] => true
         | a :: l, b :: l' => py_eq a b && all2 l l'
         | _, _ => false
         end) l l'
  | VDict d, VDict d' =>
      Nat.eqb (length d) (length d') &&
      (fix all (d : dict) : bool :=
         match d with
         | [] => true
         | (k, v) :: d => with_key k (py_eq v) false d' && all d
         end) d
  | _, _ => false
  end.

(** Iteration in continuation style: [on_elem] handles the elements of a
    list, [on_str] the fresh strings produced by iterating a string or a
    dictionary. *)
Section ForIn.
Context {B : Type}.
Context (on_elem : value -> result (list B)).
Context (on_str : value -> result (list B)).
Definition for_in (v : value) : result (list B) :=
  match v with
  | VList l => for_each on_elem l
  | VStr s => for_each on_str (chars s)
  | VDict d => for_each on_str (keys d)
  | VNone | VBool _ | VInt _ => Raise TypeError
  end.
End ForIn.

End Py.
Export Py.

(** *** scripts/fix_nested_folders.py *)

Module FixNestedFolders.

Definition TYPE_LIST : value := VStr "WebBookmarkTypeList".

(** [node.get('WebBookmarkType') == 'WebBookmarkTypeList'] *)
Definition is_list_type (d : dict) : bool :=
  py_eq (dict_get_default d "WebBookmarkType" VNone) TYPE_LIST.

(** [node.get('Title', '')] *)
Definition title_of (d : dict) : value := dict_get_default d "Title" (VStr "").

(** The input is a tree (the property-list reader shares no containers),
    so the in-place update [node['Children'] = ...] followed by
    [return node] is the updated dictionary. *)
Fixpoint flatten_nested_folders (node : value) : result value :=
  match node with
  | VDict d =>
      if is_list_type d then
        let name := title_of d in
        flattened_children ←
          with_key "Children"
            (for_in
               (fun child =>
                  match child with
                  | VDict c =>
                      if is_list_type c && py_eq (title_of c) name then
                        with_key "Children"
                          (for_in (one flatten_nested_folders)
                                  (fun nested => Ok [nested]))
                          (Ok []) c
                      else one flatten_nested_folders child
                  | _ => Ok [child]
                  end)
               (fun child => Ok [child]))
            (Ok []) d;
        Ok (VDict (dict_set d "Children" (VList flattened_children)))
      else if dict_mem d "Children" then
        cs ← with_key "Children"
               (for_in (one flatten_nested_folders) (fun c => Ok [c]))
               (Ok []) d;
        Ok (VDict (dict_set d "Children" (VList cs)))
      else Ok node
  | _ => Ok node
  end.

End FixNestedFolders.
Export FixNestedFolders.

(** The body of the Python function, written over an arbitrary [self] for
    the recursive calls; [flatten_nested_folders_eq] below shows that the
    structural definition above satisfies exactly this equation. *)
Module FlattenBody.
Section Body.
Variable self : value -> result value.

(** One iteration of the loop over [children]: the list of values
    appended to [flattened_children]. *)
Definition flatten_child (name child : value) : result (list value) :=
  match child with
  | VDict c =>
      if is_list_type c && py_eq (title_of c) name then
        nested_children ← py_iter (dict_get_default c "Children" (VList []));
        for_each (one self) nested_children
      else one self child
  | _ => Ok [child]
  end.

Definition flatten_body (node : value) : result value :=
  match node with
  | VDict d =>
      if is_list_type d then
        children ← py_iter (dict_get_default d "Children" (VList []));
        flattened_children ← for_each (flatten_child (title_of d)) children;
        Ok (VDict (dict_set d "Children" (VList flattened_children)))
      else if dict_mem d "Children" then
        children ← py_iter (dict_get_default d "Children" (VList []));
        cs ← for_each (one self) children;
        Ok (VDict (dict_set d "Children" (VList cs)))
      else Ok node
  | _ => Ok node
  end.
End Body.
End FlattenBody.
Export FlattenBody.

(** *** The Folder / Bookmark data model and its property-list encoding *)

Module Tree.

#[warnings="-register-all"]
Inductive node : Type :=
| Folder (title uuid : string) (children : list node)
| Bookmark (url title uuid : string).

Definition TYPE_LEAF : value := VStr "WebBookmarkTypeLeaf".

(** The dictionaries written by [export_to_safari.py] (lines 20-32). *)
Fixpoint encode (n : node) : value :=
  match n with
  | Folder title uuid children =>
      VDict [("WebBookmarkType", TYPE_LIST);
             ("Title", VStr title);
             ("WebBookmarkUUID", VStr uuid);
             ("Children", VList (map encode children))]
  | Bookmark url title uuid =>
      VDict [("WebBookmarkType", TYPE_LEAF);
             ("URLString", VStr url);
             ("URIDictionary", VDict [("title", VStr title)]);
             ("WebBookmarkUUID", VStr uuid)]
  end.



(** No folder has an immediate child folder carrying its own title. *)
Definition is_folder_titled (t : string) (n : node) : bool :=
  match n with Folder t' _ _ => String.eqb t' t | Bookmark _ _ _ => false end.

Fixpoint distinct_nesting (n : node) : bool :=
  match n with
  | Folder t _ cs =>
      forallb (fun c => negb (is_folder_titled t c) && distinct_nesting c) cs
  | Bookmark _ _ _ => true
  end.

(** The attributes of a dictionary node other than its children. *)
Definition label (d : dict) : dict :=
  List.filter (fun kv => negb (String.eqb (fst kv) "Children")) d.

(** The nodes of a property-list tree in document order, each by its
    label. *)
Fixpoint preorder (v : value) : list dict :=
  match v with
  | VDict d =>
      label d ::
      with_key "Children"
        (fun cs => match cs with
                   | VList l => flat_map preorder l
                   | _ => []
                   end) [] d
  | _ => []
  end.

Definition is_leaf (d : dict) : bool :=
  py_eq (dict_get_default d "WebBookmarkType" VNone) TYPE_LEAF.

(** The bookmarks of a tree in document order. *)
Definition bookmarks (v : value) : list dict :=
  List.filter is_leaf (preorder v).


(** [framed out inp]: the node sequence [out] is [inp] with some nodes
    that are not bookmarks removed; the nodes that remain keep their
    labels and their relative order, and every bookmark remains. *)
Definition framed (out inp : list dict) : Prop :=
  out `sublist_of` inp /\ List.filter is_leaf out = List.filter is_leaf inp.


Definition sample_nested : node :=
  Folder "A" "U1" [Folder "A" "U2" [Bookmark "http://x.org/" "X" "U3"];
                   Folder "B" "U4" [Bookmark "http://y.org/" "Y" "U5"]].

Definition sample_flat : node :=
  Folder "A" "U1" [Bookmark "http://x.org/" "X" "U3";
                   Folder "B" "U4" [Bookmark "http://y.org/" "Y" "U5"]].

(** Number of constructors of a value, the measure for recursion through
    dictionary lookups. *)
Fixpoint size (v : value) : nat :=
  match v with
  | VList l => S (list_sum (map size l))
  | VDict d => S (list_sum (map (fun kv => size (snd kv)) d))
  | _ => 1
  end.

(** Spec-side counts over the data model: the number of Bookmark nodes
    and of Folder nodes of a forest. *)
Fixpoint bookmark_count (n : node) : nat :=
  match n with
  | Folder _ _ cs => list_sum (map bookmark_count cs)
  | Bookmark _ _ _ => 1
  end.

Fixpoint folder_count (n : node) : nat :=
  match n with
  | Folder _ _ cs => 1 + list_sum (map folder_count cs)
  | Bookmark _ _ _ => 0
  end.

End Tree.
Export Tree.

(** *** urllib.parse (standard library), the part [extract_domain] uses

    [urlsplit_netloc url] is [urlparse(url).netloc] for a [str] argument of
    ASCII text, following [urllib.parse.urlsplit]: leading control
    characters and spaces are stripped, tab / CR / LF removed, a scheme is
    split off, and the network location is what follows a leading [//] up
    to the first of [/ ? #].  Unbalanced square brackets raise
    [ValueError]; the address literal between balanced brackets is not
    validated here.  The general statements below do not depend on this
    model: they hold for any parser. *)

Module Urllib.

Definition is_c0_or_space (c : ascii) : bool := (nat_of_ascii c <=? 32)%nat.

Definition is_unsafe (c : ascii) : bool :=
  let n := nat_of_ascii c in
  (n =? 9)%nat || (n =? 13)%nat || (n =? 10)%nat.

Definition is_alpha (c : ascii) : bool :=
  let n := nat_of_ascii c in
  ((65 <=? n) && (n <=? 90) || (97 <=? n) && (n <=? 122))%nat.

Definition is_digit (c : ascii) : bool :=
  let n := nat_of_ascii c in ((48 <=? n) && (n <=? 57))%nat.

(** Membership in [scheme_chars]: letters, digits and [+ - .]. *)
Definition is_scheme_char (c : ascii) : bool :=
  let n := nat_of_ascii c in
  is_alpha c || is_digit c || (n =? 43)%nat || (n =? 45)%nat || (n =? 46)%nat.

Fixpoint lstrip (s : string) : string :=
  match s with
  | String c s' => if is_c0_or_space c then lstrip s' else s
  | EmptyString => EmptyString
  end.

Fixpoint remove_unsafe (s : string) : string :=
  match s with
  | String c s' =>
      if is_unsafe c then remove_unsafe s' else String c (remove_unsafe s')
  | EmptyString => EmptyString
  end.

Fixpoint contains (c : ascii) (s : string) : bool :=
  match s with
  | String c' s' => Ascii.eqb c' c || contains c s'
  | EmptyString => false
  end.

(** [s[i:]] *)
Fixpoint string_drop (i : nat) (s : string) : string :=
  match i, s with
  | S i', String _ s' => string_drop i' s'
  | _, _ => s
  end.

(** [url.find(':')] and the scheme test of [urlsplit]: the rest of the
    url after the scheme when there is one, the url itself otherwise. *)
Fixpoint scheme_end (s : string) : option nat :=
  match s with
  | String c s' =>
      if Ascii.eqb c ":" then Some 0%nat
      else if is_scheme_char c then S <$> scheme_end s'
      else None
  | EmptyString => None
  end.

Definition strip_scheme (url : string) : string :=
  match url with
  | String c _ =>
      if is_alpha c then
        match scheme_end url with
        | Some i => string_drop (S i) url
        | None => url
        end
      else url
  | EmptyString => url
  end.

(** [_splitnetloc(url, 2)[0]] on the text after the two slashes. *)
Fixpoint until_delim (s : string) : string :=
  match s with
  | String c s' =>
      if Ascii.eqb c "/" || Ascii.eqb c "?" || Ascii.eqb c "#"
      then EmptyString else String c (until_delim s')
  | EmptyString => EmptyString
  end.

Definition urlsplit_netloc (url : string) : result string :=
  let url := remove_unsafe (lstrip url) in
  let url := strip_scheme url in
  if String.prefix "//" url then
    let netloc := until_delim (string_drop 2 url) in
    if contains "[" netloc && negb (contains "]" netloc)
       || contains "]" netloc && negb (contains "[" netloc)
    then Raise ValueError
    else Ok netloc
  else Ok "".

End Urllib.

(** *** scripts/analyze_bookmarks.py *)

Module AnalyzeBookmarks.

(** [str.lower] on ASCII text. *)
Definition lower_ascii (c : ascii) : ascii :=
  let n := nat_of_ascii c in
  if ((65 <=? n) && (n <=? 90))%nat then ascii_of_nat (n + 32) else c.

Fixpoint lower (s : string) : string :=
  match s with
  | String c s' => String (lower_ascii c) (lower s')
  | EmptyString => EmptyString
  end.

(** [s.startswith(p)] and [s.endswith(suffix)] *)
Definition startswith (s p : string) : bool := String.prefix p s.

Definition endswith (s suffix : string) : bool :=
  (String.length suffix <=? String.length s)%nat &&
  String.eqb
    (Urllib.string_drop (String.length s - String.length suffix) s) suffix.

(** A record of the flat export; [bm.get('url', '')] reads [bm_url]. *)
Record BookmarkRecord := { bm_url : option string; bm_title : option string }.

Section ExtractDomain.
(** [urlparse(url).netloc], or the exception [urlparse] raises. *)
Variable urlparse_netloc : string -> result string.

Definition extract_domain (url : string) : result string :=
  try_except
    (netloc ← urlparse_netloc url;
     let domain := lower netloc in
     let domain :=
       if startswith domain "www." then Urllib.string_drop 4 domain
       else domain in
     Ok domain)
    (fun _ => Ok "unknown").

(** [domains[domain] += 1] on a [Counter]: a missing key counts 0. *)
Definition incr (domain : string) (domains : gmap string nat)
  : gmap string nat :=
  <[domain := (default 0 (domains !! domain) + 1)%nat]> domains.

(** The loop of lines 27-30, from the counter [domains]. *)
Fixpoint count_domains (bookmarks : list BookmarkRecord)
    (domains : gmap string nat) : result (gmap string nat) :=
  match bookmarks with
  | [] => Ok domains
  | bm :: rest =>
      let url := default "" (bm_url bm) in
      domain ← extract_domain url;
      count_domains rest (incr domain domains)
  end.
End ExtractDomain.

(** The keys of [hosting], in the order of the dictionary literal. *)
Definition hosting_suffixes : list string :=
  ["github.io"; "vercel.app"; "netlify.app"; "pages.dev"; "neocities.org"].

Definition hosting_init : gmap string nat :=
  list_to_map (map (fun h => (h, 0%nat)) hosting_suffixes).

(** The inner loop of lines 40-42 for one [domain] with count
    [domains[domain]]. *)
Definition add_to_bucket (domain : string) (count : nat)
    (hosting : gmap string nat) (h : string) : gmap string nat :=
  if endswith domain h
  then <[h := (default 0 (hosting !! h) + count)%nat]> hosting
  else hosting.

Definition add_domain (domain : string) (count : nat)
    (hosting : gmap string nat) : gmap string nat :=
  foldl (add_to_bucket domain count) hosting hosting_suffixes.

(** The loop of lines 39-42; its result does not depend on the order in
    which the domains are visited. *)
Definition hosting_rollup (domains : gmap string nat) : gmap string nat :=
  map_fold add_domain hosting_init domains.

(** Spec-side total: the sum of the counts of the domains ending in [h]. *)
Definition suffix_total (h : string) (domains : gmap string nat) : nat :=
  list_sum (map (fun dc => if endswith (fst dc) h then snd dc else 0%nat)
                (map_to_list domains)).

(** Sample data: a counter with three domains ending in [github.io] and
    one that does not, and the record of the flat export with a given
    url. *)
Definition sample_domains : gmap string nat :=
  {[ "foo.github.io" := 2%nat; "github.io" := 3%nat;
     "mygithub.io" := 4%nat; "example.com" := 5%nat ]}.

Definition record (url : string) : BookmarkRecord :=
  {| bm_url := Some url; bm_title := None |}.

End AnalyzeBookmarks.

(** *** archive/scripts/export_to_safari.py *)

Module ExportToSafari.

(** A row of [moz_bookmarks]; nullable columns are options. *)
Record bookmark_row := {
  b_id : Z;
  b_type : option Z;
  b_title : option string;
  b_fk : option Z;
  b_parent : option Z;
  b_position : option Z
}.

(** The store: [moz_bookmarks] in table order and [moz_places] as a map
    from its primary key [id] to the (nullable) [url]. *)
Record database := {
  moz_bookmarks : list bookmark_row;
  moz_places : gmap Z (option string)
}.

(** A row of the query of [get_children]: [(id, type, title, url)]. *)
Definition child_row : Type := Z * option Z * option string * option string.

(** [LEFT JOIN moz_places p ON b.fk = p.id], column [p.url]. *)
Definition joined_url (conn : database) (r : bookmark_row) : option string :=
  match b_fk r with
  | Some fk => match moz_places conn !! fk with Some url => url | None => None end
  | None => None
  end.

(** [ORDER BY b.position]: NULL sorts first, ties keep table order. *)
Definition position_le (a b : option Z) : bool :=
  match a, b with
  | None, _ => true
  | Some _, None => false
  | Some x, Some y => (x <=? y)%Z
  end.

Fixpoint insert_row (r : bookmark_row) (l : list bookmark_row)
  : list bookmark_row :=
  match l with
  | [] => [r]
  | x :: l' =>
      if position_le (b_position r) (b_position x) then r :: l
      else x :: insert_row r l'
  end.

Definition order_by_position (l : list bookmark_row) : list bookmark_row :=
  foldr insert_row [] l.

Definition has_parent (parent_id : Z) (r : bookmark_row) : bool :=
  match b_parent r with Some p => (p =? parent_id)%Z | None => false end.

Definition select_children (conn : database) (parent_id : Z)
  : list child_row :=
  map (fun r => (b_id r, b_type r, b_title r, joined_url conn r))
      (order_by_position (List.filter (has_parent parent_id)
                                      (moz_bookmarks conn))).

(** [x or dflt] on a nullable string, and [s[:n]]. *)
Definition truthy (s : option string) : bool :=
  match s with Some (String _ _) => true | _ => false end.

Definition or_else (s : option string) (dflt : string) : string :=
  match s with Some (String c s') => String c s' | _ => dflt end.

Definition type_is (t : option Z) (n : Z) : bool :=
  match t with Some k => (k =? n)%Z | None => false end.

Section TreeBuilder.
(** [uuid4 n] is the [n]-th value of [str(uuid.uuid4()).upper()] drawn
    during the run; the counter of draws is threaded through. *)
Variable uuid4 : nat -> string.
Variable conn : database.

(** The loop over the query rows, with [self] for the recursive call
    [get_children(bid)]; [n] counts the identifiers drawn so far.  In a
    folder's dictionary literal the identifier is drawn before the
    children are built. *)
Section Rows.
Variable self : Z -> nat -> result (list value * nat).

Fixpoint emit_rows (rows : list child_row) (n : nat)
  : result (list value * nat) :=
  match rows with
  | [] => Ok ([], n)
  | (bid, btype, title, url) :: rows' =>
      if type_is btype 2 then
        '(children, n1) ← self bid (S n);
        '(items, n2) ← emit_rows rows' n1;
        Ok (VDict [("WebBookmarkType", TYPE_LIST);
                   ("Title", VStr (or_else title "Folder"));
                   ("WebBookmarkUUID", VStr (uuid4 n));
                   ("Children", VList children)] :: items, n2)
      else if type_is btype 1 && truthy url then
        let u := default "" url in
        '(items, n2) ← emit_rows rows' (S n);
        Ok (VDict [("WebBookmarkType", TYPE_LEAF);
                   ("URLString", VStr u);
                   ("URIDictionary",
                    VDict [("title",
                            VStr (or_else title (substring 0 50 u)))]);
                   ("WebBookmarkUUID", VStr (uuid4 n))] :: items, n2)
      else emit_rows rows' n
  end.
End Rows.

(** [depth] bounds the nesting of calls, as the interpreter's recursion
    limit does; exceeding it raises [RecursionError]. *)
Fixpoint get_children (depth : nat) (parent_id : Z) (n : nat)
  : result (list value * nat) :=
  match depth with
  | O => Raise RecursionError
  | S depth' =>
      emit_rows (get_children depth') (select_children conn parent_id) n
  end.
End TreeBuilder.

(** What a query row contributes to the list built by [get_children]. *)
Inductive emitted := EFolder | EBookmark (url : string).

Definition row_emits (r : child_row) : option emitted :=
  let '(_, btype, _, url) := r in
  if type_is btype 2 then Some EFolder
  else if type_is btype 1 then
    match url with
    | Some (String c s) => Some (EBookmark (String c s))
    | _ => None
    end
  else None.

Definition node_kind (v : value) : option emitted :=
  match v with
  | VDict d =>
      if is_list_type d then Some EFolder
      else if is_leaf d then
        match dict_get d "URLString" with
        | Some (VStr u) => Some (EBookmark u)
        | _ => None
        end
      else None
  | _ => None
  end.

(** The bookmarks of a forest, in document order. *)
Definition forest_bookmarks (items : list value) : list dict :=
  List.filter is_leaf (flat_map preorder items).

(** A bookmark label carries a non-empty [URLString]. *)
Definition has_url (d : dict) : Prop :=
  exists c s, dict_get d "URLString" = Some (VStr (String c s)).

(** [cnt]: the fold over [items] with the running totals [b] and [f]. *)
Fixpoint cnt (items : value) : result (nat * nat) :=
  match items with
  | VList l =>
      (fix loop (l : list value) (b f : nat) : result (nat * nat) :=
         match l with
         | [] => Ok (b, f)
         | VDict d :: l' =>
             with_key "WebBookmarkType"
               (fun ty =>
                  if py_eq ty TYPE_LEAF then loop l' (b + 1)%nat f
                  else
                    '(cb, cf) ← with_key "Children" cnt (Ok (0, 0)%nat) d;
                    loop l' (b + cb)%nat (f + 1 + cf)%nat)
               (Raise KeyError) d
         | _ :: _ => Raise TypeError
         end) l 0%nat 0%nat
  | VStr EmptyString | VDict [] => Ok (0, 0)%nat
  | _ => Raise TypeError
  end.

(** The body of [cnt] over an arbitrary [self]; see [cnt_eq]. *)
Section CntBody.
Variable self : value -> result (nat * nat).

Fixpoint cnt_loop (l : list value) (b f : nat) : result (nat * nat) :=
  match l with
  | [] => Ok (b, f)
  | i :: l' =>
      match i with
      | VDict d =>
          match dict_get d "WebBookmarkType" with
          | None => Raise KeyError
          | Some ty =>
              if py_eq ty TYPE_LEAF then cnt_loop l' (b + 1)%nat f
              else
                '(cb, cf) ← self (dict_get_default d "Children" (VList []));
                cnt_loop l' (b + cb)%nat (f + 1 + cf)%nat
          end
      | _ => Raise TypeError
      end
  end.

Definition cnt_body (items : value) : result (nat * nat) :=
  l ← py_iter items; cnt_loop l 0%nat 0%nat.
End CntBody.

(** Line 42: the rows of
    [SELECT id FROM moz_bookmarks WHERE parent=0 OR parent IS NULL],
    [fetchone()] and the subscript [[0]] of its result. *)
Definition is_root_candidate (r : bookmark_row) : bool :=
  match b_parent r with Some p => (p =? 0)%Z | None => true end.

Definition root_candidates (conn : database) : list bookmark_row :=
  List.filter is_root_candidate (moz_bookmarks conn).

Definition fetchone {A} (rows : list A) : option A := head rows.

Definition root (conn : database) : result Z :=
  match fetchone (root_candidates conn) with
  | Some r => Ok (b_id r)
  | None => Raise TypeError
  end.

(** Sample data: a forest of one root folder with three bookmarks and one
    empty folder; a store with one root, a folder, a bookmark with a url
    and a bookmark row without one; a store with two root candidates. *)
Definition sample_forest : list node :=
  [Folder "Root" "U1"
     [Bookmark "http://a.org/" "a" "U2";
      Bookmark "http://b.org/" "b" "U3";
      Folder "Empty" "U4" [];
      Bookmark "http://c.org/" "c" "U5"]].

Definition row (id : Z) (type : Z) (title : string) (fk : option Z)
    (parent : Z) (position : Z) : bookmark_row :=
  {| b_id := id; b_type := Some type; b_title := Some title; b_fk := fk;
     b_parent := Some parent; b_position := Some position |}.

Definition sample_store : database :=
  {| moz_bookmarks :=
       [row 1 2 "root" None 0 0;
        row 2 2 "Tools" None 1 0;
        row 3 1 "Site" (Some 10%Z) 1 1;
        row 4 1 "Dangling" None 1 2;
        row 5 1 "Empty" (Some 11%Z) 2 0;
        row 6 1 "" (Some 10%Z) 2 1];
     moz_places := {[ 10%Z := Some "http://site.org/"; 11%Z := Some "" ]} |}.


Definition sample_uuid4 (n : nat) : string :=
  String (ascii_of_nat (65 + n)) EmptyString.

(** A store is ranked when every folder row lies strictly below its
    parent: the parent chains are finite and [get_children] returns. *)
Definition ranked (conn : database) (rank : Z -> nat) : Prop :=
  forall r p, In r (moz_bookmarks conn) -> b_parent r = Some p ->
              type_is (b_type r) 2 = true -> (rank (b_id r) < rank p)%nat.

End ExportToSafari.

(** *** The data model, continued *)

Module TreeModel.

(** [flatten_nested_folders] read on the data model: a child folder with
    the title of its parent is replaced by its normalized children, any
    other child by its normalized form.  [flatten_on_trees] shows that the
    code computes this function on encoded trees. *)
Definition splice (self : node -> node) (t : string) (c : node) : list node :=
  match c with
  | Folder t' _ cs' =>
      if String.eqb t' t then map self cs' else [self c]
  | Bookmark _ _ _ => [c]
  end.

Fixpoint normalize (n : node) : node :=
  match n with
  | Folder t u cs => Folder t u (flat_map (splice normalize t) cs)
  | Bookmark _ _ _ => n
  end.

(** No same-titled chain is longer than two: a child folder carrying the
    title of its parent has no child folder with that title. *)
Fixpoint short_chains (n : node) : bool :=
  match n with
  | Folder t _ cs =>
      forallb (fun c =>
                 match c with
                 | Folder t' _ cs' =>
                     (if String.eqb t' t
                      then negb (existsb (is_folder_titled t) cs')
                      else true) && short_chains c
                 | Bookmark _ _ _ => true
                 end) cs
  | Bookmark _ _ _ => true
  end.

Definition nonempty (s : string) : bool :=
  match s with String _ _ => true | EmptyString => false end.

(** Every folder has a non-empty title, every bookmark a non-empty url
    and a non-empty title. *)
Fixpoint named (n : node) : bool :=
  match n with
  | Folder t _ cs => nonempty t && forallb named cs
  | Bookmark url t _ => nonempty url && nonempty t
  end.

Fixpoint node_count (n : node) : nat :=
  match n with
  | Folder _ _ cs => S (list_sum (map node_count cs))
  | Bookmark _ _ _ => 1
  end.

(** The identifiers of a tree in document order. *)
Fixpoint uuids (n : node) : list string :=
  match n with
  | Folder _ u cs => u :: flat_map uuids cs
  | Bookmark _ _ u => [u]
  end.

(** [WebBookmarkUUID] of a label. *)
Definition uuid_of (d : dict) : option value := dict_get d "WebBookmarkUUID".

End TreeModel.
Export TreeModel.

(** *** analyze_bookmarks.py, continued *)

Module AnalyzeModel.
Import AnalyzeBookmarks.

(** The record [bm] is mapped to the domain [d]. *)
Definition domain_is (urlparse_netloc : string -> result string)
    (d : string) (bm : BookmarkRecord) : bool :=
  match extract_domain urlparse_netloc (default "" (bm_url bm)) with
  | Ok r => String.eqb r d
  | Raise _ => false
  end.

End AnalyzeModel.

(** *** export_to_safari.py, continued: lines 42-61 *)

Module ExportDocument.
Import ExportToSafari.

Section Document.
Variable uuid4 : nat -> string.

(** The dictionary [data]: the identifiers of the root, of BookmarksBar
    and of BookmarksMenu are drawn in this order, after those of the
    tree. *)
Definition envelope (bookmarks : list value) (n : nat) : value :=
  VDict [("WebBookmarkFileVersion", VInt 1);
         ("WebBookmarkType", TYPE_LIST);
         ("WebBookmarkUUID", VStr (uuid4 n));
         ("Children",
          VList [VDict [("WebBookmarkType", TYPE_LIST);
                        ("Title", VStr "BookmarksBar");
                        ("WebBookmarkUUID", VStr (uuid4 (S n)));
                        ("Children", VList bookmarks)];
                 VDict [("WebBookmarkType", TYPE_LIST);
                        ("Title", VStr "BookmarksMenu");
                        ("WebBookmarkUUID", VStr (uuid4 (S (S n))));
                        ("Children", VList [])]])].

(** [built n items n']: [items] is the encoding of a forest of the data
    model with non-empty titles and urls, whose identifiers in document
    order are the draws [n], [n+1], ... up to [n'] excluded. *)
Definition built (n : nat) (items : list value) (n' : nat) : Prop :=
  exists forest : list node,
    items = map encode forest /\
    forallb named forest = true /\
    n' = (n + list_sum (map node_count forest))%nat /\
    flat_map uuids forest =
      map uuid4 (seq n (list_sum (map node_count forest))).

(** Lines 42-61: the root, the tree, the two counts and the document. *)
Definition export (conn : database) (depth : nat)
  : result (nat * nat * value) :=
  r ← root conn;
  '(bookmarks, n) ← get_children uuid4 conn depth r 0;
  '(b, f) ← cnt (VList bookmarks);
  Ok (b, f, envelope bookmarks n).
End Document.

(** Sample data: a rank for [sample_store], and a store whose folder 7 is
    its own parent. *)
Definition sample_rank (id : Z) : nat :=
  if (id =? 0)%Z then 3 else if (id =? 1)%Z then 2
  else if (id =? 2)%Z then 1 else 0.

Definition looping_store : database :=
  {| moz_bookmarks := [row 7 2 "loop" None 7 0; row 8 1 "Site" (Some 10%Z) 7 1];
     moz_places := {[ 10%Z := Some "http://site.org/" ]} |}.

End ExportDocument.

(** ** Part II. Properties *)

(** *** Python values *)

Section PyFacts.

Lemma with_key_dict_get {A} key (k : value -> A) dflt (d : dict) :
  with_key key k dflt d =
  match dict_get d key with Some v => k v | None => dflt end.
Proof.
  induction d as [|[k' v] d IH]; simpl; [reflexivity|].
  destruct (String.eqb k' key); [reflexivity | exact IH].
Qed.

Lemma for_each_ext {A B} (f g : A -> result (list B)) (l : list A) :
  Forall (fun x => f x = g x) l -> for_each f l = for_each g l.
Proof.
  induction 1 as [|x l Hx _ IH]; simpl; [reflexivity|].
  rewrite Hx, IH. reflexivity.
Qed.


Lemma chars_strings s : Forall (fun v => exists c, v = VStr c) (chars s).
Proof.
  unfold chars. induction (list_ascii_of_string s); simpl;
    constructor; eauto.
Qed.

Lemma keys_strings (d : dict) : Forall (fun v => exists c, v = VStr c) (keys d).
Proof. unfold keys. induction d; simpl; constructor; eauto. Qed.

(** Iteration in continuation style is iteration over [py_iter]. *)
Lemma for_in_py_iter {B} (f g : value -> result (list B)) (v : value) :
  (forall s, g (VStr s) = f (VStr s)) ->
  for_in f g v = l ← py_iter v; for_each f l.
Proof.
  intros Hg. destruct v; simpl; try reflexivity.
  - apply for_each_ext. eapply List.Forall_impl; [|apply chars_strings].
    intros v [c ->]. apply Hg.
  - apply for_each_ext. eapply List.Forall_impl; [|apply keys_strings].
    intros v [c ->]. apply Hg.
Qed.

End PyFacts.

(** *** flatten_nested_folders *)

Section FlattenFacts.

(** The structural definition satisfies the equation of the Python body. *)
Lemma flatten_nested_folders_eq (node : value) :
  flatten_nested_folders node = flatten_body flatten_nested_folders node.
Proof.
  destruct node as [| | | | |d]; try reflexivity.
  cbn [flatten_nested_folders flatten_body].
  destruct (is_list_type d) eqn:Hty.
  - rewrite with_key_dict_get. unfold dict_get_default.
    assert (Heq : forall v,
      for_in
        (fun child => match child with
           | VDict c =>
               if is_list_type c && py_eq (title_of c) (title_of d) then
                 with_key "Children"
                   (for_in (one flatten_nested_folders)
                           (fun nested => Ok [nested])) (Ok []) c
               else one flatten_nested_folders child
           | _ => Ok [child]
           end) (fun child => Ok [child]) v =
      l ← py_iter v;
      for_each (flatten_child flatten_nested_folders (title_of d)) l).
    { intros v. rewrite for_in_py_iter by reflexivity.
      destruct (py_iter v) as [l|e]; simpl; [|reflexivity].
      apply for_each_ext, Forall_forall. intros c _.
      destruct c as [| | | | |c]; try reflexivity.
      unfold flatten_child.
      destruct (is_list_type c && py_eq (title_of c) (title_of d));
        [|reflexivity].
      rewrite with_key_dict_get. unfold dict_get_default.
      destruct (dict_get c "Children") as [v'|]; [|reflexivity].
      apply for_in_py_iter. reflexivity. }
    destruct (dict_get d "Children") as [v|]; [|reflexivity].
    rewrite Heq. destruct (py_iter v); reflexivity.
  - destruct (dict_mem d "Children"); [|reflexivity].
    rewrite with_key_dict_get. unfold dict_get_default.
    destruct (dict_get d "Children") as [v|]; [|reflexivity].
    rewrite for_in_py_iter by reflexivity.
    destruct (py_iter v); reflexivity.
Qed.

Example flatten_three_levels :
  flatten_nested_folders
    (encode (Folder "A" "u1" [Folder "A" "u2" [Folder "A" "u3"
               [Bookmark "http://x" "X" "u4"]]])) =
  Ok (encode (Folder "A" "u1" [Folder "A" "u3"
               [Bookmark "http://x" "X" "u4"]])).
Proof. reflexivity. Qed.

End FlattenFacts.

Section FlattenOnTrees.


Lemma flatten_bookmark url title uuid :
  flatten_nested_folders (encode (Bookmark url title uuid)) =
  Ok (encode (Bookmark url title uuid)).
Proof. reflexivity. Qed.

(** A folder of the data model: the loop runs over the encoded children
    and only the [Children] entry is replaced. *)
Lemma flatten_folder title uuid children :
  flatten_nested_folders (encode (Folder title uuid children)) =
  flattened ← for_each (flatten_child flatten_nested_folders (VStr title))
                       (map encode children);
  Ok (VDict [("WebBookmarkType", TYPE_LIST); ("Title", VStr title);
             ("WebBookmarkUUID", VStr uuid);
             ("Children", VList flattened)]).
Proof. rewrite flatten_nested_folders_eq. reflexivity. Qed.

Lemma flatten_child_bookmark self name url title uuid :
  flatten_child self name (encode (Bookmark url title uuid)) =
  one self (encode (Bookmark url title uuid)).
Proof. reflexivity. Qed.

Lemma flatten_child_folder self t title uuid children :
  flatten_child self (VStr t) (encode (Folder title uuid children)) =
  if String.eqb title t then for_each (one self) (map encode children)
  else one self (encode (Folder title uuid children)).
Proof.
  unfold flatten_child. cbn.
  destruct (String.eqb title t); reflexivity.
Qed.




(** C1 (the code at the failing input).  A chain of three folders titled
    "A" around one bookmark: a single application of
    [flatten_nested_folders] returns Folder "A" > Folder "A" > bookmark,
    two levels, and not the single level Folder "A" > bookmark. *)
Theorem C1_chain_of_three_keeps_two_levels u1 u2 u3 url t u :
  let x := Bookmark url t u in
  flatten_nested_folders
    (encode (Folder "A" u1 [Folder "A" u2 [Folder "A" u3 [x]]])) =
    Ok (encode (Folder "A" u1 [Folder "A" u3 [x]])) /\
  encode (Folder "A" u1 [Folder "A" u3 [x]]) <> encode (Folder "A" u1 [x]).
Proof.
  intros x. split; [reflexivity|]. cbn. intros H.
  injection H as H. discriminate H.
Qed.

(** C2 (the code at the failing input).  On the same chain a second
    application still changes the tree, also up to Python's [==]: the
    first pass returns two levels, the second pass one. *)
Theorem C2_second_pass_changes_chain u1 u2 u3 url t u :
  let x := Bookmark url t u in
  let once := encode (Folder "A" u1 [Folder "A" u3 [x]]) in
  let twice := encode (Folder "A" u1 [x]) in
  flatten_nested_folders
    (encode (Folder "A" u1 [Folder "A" u2 [Folder "A" u3 [x]]])) = Ok once /\
  flatten_nested_folders once = Ok twice /\
  twice <> once /\ py_eq twice once = false.
Proof.
  intros x once twice. split; [reflexivity|]. split; [reflexivity|]. split.
  - subst once twice x. cbn. intros H. injection H as H. discriminate H.
  - subst once twice x. cbn. rewrite String.eqb_refl. reflexivity.
Qed.

End FlattenOnTrees.

(** *** Frame properties of flatten_nested_folders *)

Section FlattenFrame.

Lemma value_size_ind (P : value -> Prop) :
  (forall v, (forall w, (size w < size v)%nat -> P w) -> P v) ->
  forall v, P v.
Proof.
  intros Hstep v. remember (S (size v)) as n eqn:Hn.
  assert (Hlt : (size v < n)%nat) by lia. clear Hn.
  revert v Hlt. induction n as [|n IH]; intros v Hlt; [lia|].
  apply Hstep. intros w Hw. apply IH. lia.
Qed.

Lemma size_elem (l : list value) (c : value) :
  In c l -> (size c < size (VList l))%nat.
Proof.
  cbn [size]. induction l as [|x l IH]; simpl; [easy|].
  intros [->|Hin]; [lia|]. specialize (IH Hin). lia.
Qed.

Lemma size_dict_get (d : dict) key v :
  dict_get d key = Some v -> (size v < size (VDict d))%nat.
Proof.
  cbn [size]. induction d as [|[k w] d IH]; simpl; [discriminate|].
  destruct (String.eqb k key).
  - intros [= ->]. lia.
  - intros H. specialize (IH H). lia.
Qed.

(** The dictionaries met while iterating over [d.get('Children', [])]
    are sub-values of [d]. *)
Lemma size_child (d : dict) cs c :
  py_iter (dict_get_default d "Children" (VList [])) = Ok cs ->
  In c cs -> is_dict c = true -> (size c < size (VDict d))%nat.
Proof.
  unfold dict_get_default. destruct (dict_get d "Children") as [v|] eqn:Hget.
  - apply size_dict_get in Hget. destruct v; cbn [py_iter]; try discriminate.
    + intros [= <-] Hin Hd.
      pose proof (chars_strings s) as Hs. rewrite List.Forall_forall in Hs.
      destruct (Hs c Hin) as [? ->]. discriminate.
    + intros [= <-] Hin _. apply size_elem in Hin. lia.
    + intros [= <-] Hin Hd.
      pose proof (keys_strings d0) as Hs. rewrite List.Forall_forall in Hs.
      destruct (Hs c Hin) as [? ->]. discriminate.
  - intros [= <-] [].
Qed.

Lemma flatten_not_dict v : is_dict v = false -> flatten_nested_folders v = Ok v.
Proof. destruct v; [reflexivity..|discriminate]. Qed.

Lemma dict_get_set_eq (d : dict) key v :
  dict_get (dict_set d key v) key = Some v.
Proof.
  induction d as [|[k w] d IH]; cbn.
  - now rewrite String.eqb_refl.
  - destruct (String.eqb k key) eqn:E; cbn; rewrite E; [reflexivity|exact IH].
Qed.

Lemma dict_get_set_ne (d : dict) key key' v :
  key <> key' -> dict_get (dict_set d key v) key' = dict_get d key'.
Proof.
  intros Hne. induction d as [|[k w] d IH]; cbn.
  - destruct (String.eqb_spec key key'); [contradiction|reflexivity].
  - destruct (String.eqb_spec k key) as [->|Hk]; cbn.
    + destruct (String.eqb_spec key key'); [contradiction|reflexivity].
    + destruct (String.eqb k key'); [reflexivity|exact IH].
Qed.

(** Replacing a value that is already stored leaves the dictionary as it
    is. *)
Lemma dict_set_same (d : dict) key v :
  dict_get d key = Some v -> dict_set d key v = d.
Proof.
  induction d as [|[k w] d IH]; cbn; [discriminate|].
  destruct (String.eqb k key).
  - now intros [= ->].
  - intros H. now rewrite IH.
Qed.

Lemma label_dict_set (d : dict) v : label (dict_set d "Children" v) = label d.
Proof.
  unfold label. induction d as [|[k w] d IH]; [reflexivity|].
  cbn [dict_set]. destruct (String.eqb k "Children") eqn:E.
  - cbn [List.filter fst]. now rewrite E.
  - cbn [List.filter fst]. rewrite E. cbn. now rewrite IH.
Qed.

Lemma dict_get_label (d : dict) key :
  key <> "Children" -> dict_get (label d) key = dict_get d key.
Proof.
  intros Hne. unfold label. induction d as [|[k w] d IH]; [reflexivity|].
  cbn [List.filter fst].
  destruct (String.eqb k "Children") eqn:E; cbn [negb dict_get].
  - apply String.eqb_eq in E. subst k.
    destruct (String.eqb_spec "Children" key) as [<-|_]; [contradiction|].
    exact IH.
  - destruct (String.eqb k key); [reflexivity|exact IH].
Qed.

Lemma py_eq_str v s : py_eq v (VStr s) = true -> v = VStr s.
Proof.
  destruct v; cbn; try discriminate.
  intros H. apply String.eqb_eq in H. now subst.
Qed.

Lemma list_type_not_leaf (d : dict) :
  is_list_type d = true -> is_leaf (label d) = false.
Proof.
  unfold is_list_type, is_leaf, dict_get_default. intros H.
  rewrite dict_get_label by discriminate.
  apply py_eq_str in H. rewrite H. reflexivity.
Qed.

End FlattenFrame.

Section FlattenPreorder.

Lemma framed_refl l : framed l l.
Proof. split; reflexivity. Qed.

Lemma framed_app a b a' b' :
  framed a a' -> framed b b' -> framed (a ++ b) (a' ++ b').
Proof.
  intros [Ha Ea] [Hb Eb]. split.
  - now apply sublist_app.
  - rewrite !List.filter_app. now rewrite Ea, Eb.
Qed.

Lemma framed_keep x a b : framed a b -> framed (x :: a) (x :: b).
Proof. intros H. apply (framed_app [x] a [x] b); [apply framed_refl|exact H]. Qed.

Lemma framed_drop x a b : is_leaf x = false -> framed a b -> framed a (x :: b).
Proof.
  intros Hx [Hs He]. split.
  - now apply sublist_cons.
  - cbn [List.filter]. now rewrite Hx.
Qed.

Lemma preorder_strings l :
  Forall (fun v => exists c, v = VStr c) l -> flat_map preorder l = [].
Proof. induction 1 as [|v l [c ->] _ IH]; [reflexivity|exact IH]. Qed.

Lemma preorder_dict (d : dict) cs :
  py_iter (dict_get_default d "Children" (VList [])) = Ok cs ->
  preorder (VDict d) = label d :: flat_map preorder cs.
Proof.
  cbn [preorder]. rewrite with_key_dict_get. unfold dict_get_default.
  destruct (dict_get d "Children") as [v|]; [|now intros [= <-]].
  destruct v; cbn [py_iter]; try discriminate; intros [= <-]; f_equal.
  - symmetry. apply preorder_strings, chars_strings.
  - symmetry. apply preorder_strings, keys_strings.
Qed.

Lemma preorder_updated (d : dict) out :
  preorder (VDict (dict_set d "Children" (VList out))) =
  label d :: flat_map preorder out.
Proof.
  rewrite (preorder_dict _ out), label_dict_set; [reflexivity|].
  unfold dict_get_default. now rewrite dict_get_set_eq.
Qed.

Lemma for_each_framed (f : value -> result (list value)) cs out :
  (forall c out_c, In c cs -> f c = Ok out_c ->
     framed (flat_map preorder out_c) (preorder c)) ->
  for_each f cs = Ok out ->
  framed (flat_map preorder out) (flat_map preorder cs).
Proof.
  revert out. induction cs as [|c cs IH]; intros out Hf; cbn [for_each].
  - intros [= <-]. apply framed_refl.
  - destruct (f c) as [ys|e] eqn:Hc; cbn; [|discriminate].
    destruct (for_each f cs) as [zs|e]; cbn; [|discriminate].
    intros [= <-]. rewrite List.flat_map_app. cbn [flat_map].
    apply framed_app.
    + apply Hf; [now left|exact Hc].
    + apply IH; [|reflexivity]. intros c' o Hin. apply Hf. now right.
Qed.

Lemma one_framed (bound : nat) (n : value) o :
  (forall w w', (size w < bound)%nat -> flatten_nested_folders w = Ok w' ->
                framed (preorder w') (preorder w)) ->
  (is_dict n = true -> (size n < bound)%nat) ->
  one flatten_nested_folders n = Ok o ->
  framed (flat_map preorder o) (preorder n).
Proof.
  intros IH Hn. unfold one.
  destruct (flatten_nested_folders n) as [n'|e] eqn:Hfl; cbn; [|discriminate].
  intros [= <-]. cbn [flat_map]. rewrite app_nil_r.
  destruct (is_dict n) eqn:Hd.
  - apply (IH n n'); auto.
  - rewrite flatten_not_dict in Hfl by assumption.
    injection Hfl as <-. apply framed_refl.
Qed.

(** The nodes of the output, in document order, are those of the input
    without the dropped folders, and every bookmark is still there. *)
Lemma flatten_framed v v' :
  flatten_nested_folders v = Ok v' -> framed (preorder v') (preorder v).
Proof.
  revert v'. induction v as [v IH] using value_size_ind. intros v'.
  destruct (is_dict v) eqn:Hd.
  2:{ rewrite flatten_not_dict by assumption. intros [= <-]. apply framed_refl. }
  destruct v as [| | | | |d]; try discriminate. clear Hd.
  rewrite flatten_nested_folders_eq. cbn [flatten_body].
  destruct (py_iter (dict_get_default d "Children" (VList [])))
    as [cs|e] eqn:Hcs.
  2:{ destruct (is_list_type d); [discriminate|].
      destruct (dict_mem d "Children"); [discriminate|].
      intros [= <-]. apply framed_refl. }
  rewrite (preorder_dict d cs Hcs). cbn [mbind result_bind].
  destruct (is_list_type d).
  - destruct (for_each _ cs) as [out|e] eqn:Hout; cbn [mbind result_bind]; [|discriminate].
    intros [= <-]. rewrite preorder_updated. apply framed_keep.
    eapply for_each_framed; [|exact Hout].
    intros c out_c Hin. pose proof (size_child d cs c Hcs Hin) as Hsz.
    destruct c as [| | | | |c];
      try (intros [= <-]; cbn [flat_map]; rewrite app_nil_r;
           apply framed_refl).
    specialize (Hsz eq_refl). cbn [flatten_child].
    destruct (is_list_type c) eqn:Hty; cbn [andb].
    + destruct (py_eq (title_of c) (title_of d)).
      * destruct (py_iter (dict_get_default c "Children" (VList [])))
          as [ns|e] eqn:Hns; cbn [mbind result_bind]; [|discriminate].
        intros Hnested. rewrite (preorder_dict c ns Hns).
        apply framed_drop; [now apply list_type_not_leaf|].
        eapply for_each_framed; [|exact Hnested].
        intros n o Hn. apply (one_framed (size (VDict d))).
        -- intros w w' Hw. now apply IH.
        -- intros Hdn. pose proof (size_child c ns n Hns Hn Hdn). lia.
      * apply (one_framed (size (VDict d))); [|easy].
        intros w w' Hw. now apply IH.
    + apply (one_framed (size (VDict d))); [|easy].
      intros w w' Hw. now apply IH.
  - destruct (dict_mem d "Children").
    + destruct (for_each _ cs) as [out|e] eqn:Hout; cbn [mbind result_bind]; [|discriminate].
      intros [= <-]. rewrite preorder_updated. apply framed_keep.
      eapply for_each_framed; [|exact Hout].
      intros c o Hin. apply (one_framed (size (VDict d))).
      * intros w w' Hw. now apply IH.
      * intros Hdc. exact (size_child d cs c Hcs Hin Hdc).
    + intros [= <-]. rewrite (preorder_dict d cs Hcs). apply framed_refl.
Qed.

End FlattenPreorder.

Section FlattenClaims.

Lemma node_nested_ind (P : node -> Prop) :
  (forall title uuid children,
      Forall P children -> P (Folder title uuid children)) ->
  (forall url title uuid, P (Bookmark url title uuid)) ->
  forall n, P n.
Proof.
  intros Hfolder Hleaf.
  refine (fix go (n : node) : P n :=
            match n with
            | Folder t u cs =>
                Hfolder t u cs
                  ((fix all (l : list node) : Forall P l :=
                      match l with
                      | [] => @List.Forall_nil _ P
                      | c :: l' => @List.Forall_cons _ P c l' (go c) (all l')
                      end) cs)
            | Bookmark url t u => Hleaf url t u
            end).
Qed.

(** A tree in which no folder holds a folder of its own title is
    returned as it is. *)
Lemma flatten_distinct (t : node) :
  distinct_nesting t = true ->
  flatten_nested_folders (encode t) = Ok (encode t).
Proof.
  induction t as [title uuid cs IH|url t u] using node_nested_ind;
    [|reflexivity].
  cbn [distinct_nesting]. intros Hcs. rewrite flatten_folder.
  assert (Hall : for_each (flatten_child flatten_nested_folders (VStr title))
                          (map encode cs) = Ok (map encode cs)).
  { induction IH as [|c cs Hc _ IHcs]; [reflexivity|].
    cbn [forallb] in Hcs.
    apply andb_prop in Hcs as [Hhd Htl].
    apply andb_prop in Hhd as [Hne Hdist].
    cbn [map for_each]. rewrite (IHcs Htl).
    destruct c as [t' u' cs'|url t' u'].
    - rewrite flatten_child_folder. cbn [is_folder_titled] in Hne.
      apply negb_true_iff in Hne. rewrite Hne. unfold one.
      rewrite (Hc Hdist). reflexivity.
    - reflexivity. }
  rewrite Hall. reflexivity.
Qed.






End FlattenClaims.


(** *** cnt *)

Section CntFacts.
Import ExportToSafari.

Lemma cnt_loop_eq (l : list value) :
  forall b f,
    (fix loop (l : list value) (b f : nat) : result (nat * nat) :=
       match l with
       | [] => Ok (b, f)
       | VDict d :: l' =>
           with_key "WebBookmarkType"
             (fun ty =>
                if py_eq ty TYPE_LEAF then loop l' (b + 1)%nat f
                else
                  '(cb, cf) ← with_key "Children" cnt (Ok (0, 0)%nat) d;
                  loop l' (b + cb)%nat (f + 1 + cf)%nat)
             (Raise KeyError) d
       | _ :: _ => Raise TypeError
       end) l b f = cnt_loop cnt l b f.
Proof.
  induction l as [|i l IH]; intros b f; [reflexivity|].
  destruct i as [| | | | |d]; try reflexivity.
  cbn [cnt_loop]. rewrite with_key_dict_get.
  destruct (dict_get d "WebBookmarkType") as [ty|]; [|reflexivity].
  destruct (py_eq ty TYPE_LEAF); [apply IH|].
  rewrite with_key_dict_get. unfold dict_get_default.
  destruct (dict_get d "Children") as [v|].
  - destruct (cnt v) as [[cb cf]|e]; cbn [mbind result_bind]; [apply IH|reflexivity].
  - cbn [mbind result_bind]. apply IH.
Qed.

(** The structural definition satisfies the equation of the Python body. *)
Lemma cnt_eq (items : value) : cnt items = cnt_body cnt items.
Proof.
  destruct items as [| | |s|l|d]; try reflexivity.
  - destruct s; reflexivity.
  - unfold cnt_body. cbn [py_iter mbind result_bind cnt]. apply cnt_loop_eq.
  - destruct d as [|[k v] d]; reflexivity.
Qed.

(** One node of the data model adds its bookmarks and folders to the
    running totals. *)
Lemma cnt_loop_node (n : node) :
  forall rest b f,
    cnt_loop cnt (encode n :: rest) b f =
    cnt_loop cnt rest (b + bookmark_count n)%nat (f + folder_count n)%nat.
Proof.
  induction n as [title uuid cs IH|url t u] using node_nested_ind;
    intros rest b f.
  - assert (Hcs : forall b f,
      cnt_loop cnt (map encode cs) b f =
      Ok (b + list_sum (map bookmark_count cs),
          f + list_sum (map folder_count cs))%nat).
    { clear b f. induction IH as [|c cs Hc _ IHcs]; intros b f.
      - cbn. now rewrite !Nat.add_0_r.
      - cbn [map]. rewrite Hc, IHcs. unfold list_sum. simpl.
        f_equal. f_equal; lia. }
    cbn [encode cnt_loop]. cbn [dict_get String.eqb Ascii.eqb Bool.eqb].
    change (py_eq TYPE_LIST TYPE_LEAF) with false. cbv iota.
    change (dict_get_default _ "Children" (VList []))
      with (VList (map encode cs)).
    rewrite cnt_eq. unfold cnt_body. cbn [py_iter mbind result_bind].
    rewrite Hcs. cbn [mbind result_bind bookmark_count folder_count].
    f_equal; lia.
  - cbn [encode cnt_loop]. cbn [dict_get String.eqb Ascii.eqb Bool.eqb].
    change (py_eq TYPE_LEAF TYPE_LEAF) with true. cbv iota.
    cbn [bookmark_count folder_count]. f_equal; lia.
Qed.

Lemma cnt_loop_forest (forest : list node) :
  forall b f,
    cnt_loop cnt (map encode forest) b f =
    Ok (b + list_sum (map bookmark_count forest),
        f + list_sum (map folder_count forest))%nat.
Proof.
  induction forest as [|n forest IH]; intros b f.
  - cbn. now rewrite !Nat.add_0_r.
  - cbn [map]. rewrite cnt_loop_node, IH. unfold list_sum. simpl.
    f_equal. f_equal; lia.
Qed.

(** C6.  On the encoding of any forest of Folder and Bookmark nodes [cnt]
    returns the number of Bookmark nodes and the number of Folder nodes of
    the whole forest, at any depth and with empty folders counted; the
    forest of one root folder holding three bookmarks and one empty folder
    gives (3, 2). *)
Theorem C6_cnt_counts_nodes :
  (forall forest : list node,
      cnt (VList (map encode forest)) =
      Ok (list_sum (map bookmark_count forest),
          list_sum (map folder_count forest))) /\
  cnt (VList (map encode sample_forest)) = Ok (3, 2)%nat.
Proof.
  split; [|reflexivity].
  intros forest. rewrite cnt_eq. unfold cnt_body.
  cbn [py_iter mbind result_bind]. now rewrite cnt_loop_forest.
Qed.

End CntFacts.


(** *** get_children and root *)

Section TreeBuilderFacts.
Import ExportToSafari.

Variable uuid4 : nat -> string.

Lemma emit_rows_spec (self : Z -> nat -> result (list value * nat)) :
  (forall bid n cs n', self bid n = Ok (cs, n') ->
     Forall has_url (forest_bookmarks cs)) ->
  forall rows n items n',
    emit_rows uuid4 self rows n = Ok (items, n') ->
    map node_kind items = map Some (omap row_emits rows) /\
    Forall has_url (forest_bookmarks items).
Proof.
  unfold forest_bookmarks. intros Hself rows.
  induction rows as [|[[[bid btype] title] url] rows IH]; intros n items n'.
  - intros [= <- <-]. split; [reflexivity|constructor].
  - cbn [emit_rows omap list_omap row_emits].
    destruct (type_is btype 2) eqn:Hfolder.
    + destruct (self bid (S n)) as [[cs n1]|e] eqn:Hcs;
        cbn [mbind result_bind]; [|discriminate].
      destruct (emit_rows uuid4 self rows n1) as [[items' n2]|e] eqn:Hrest;
        cbn [mbind result_bind]; [|discriminate].
      intros [= <- <-]. destruct (IH _ _ _ Hrest) as [IHk IHu].
      split.
      * cbn [map]. now rewrite IHk.
      * cbn [flat_map]. rewrite (preorder_dict _ cs) by reflexivity.
        cbn [app List.filter]. rewrite list_type_not_leaf by reflexivity.
        rewrite List.filter_app. apply Forall_app. split; [|exact IHu].
        exact (Hself _ _ _ _ Hcs).
    + destruct (type_is btype 1) eqn:Hleaf; cbn [andb].
      * destruct url as [[|c s]|]; cbn [truthy]; [now apply IH| |now apply IH].
        destruct (emit_rows uuid4 self rows (S n)) as [[items' n2]|e] eqn:Hrest;
          cbn [mbind result_bind]; [|discriminate].
        intros [= <- <-]. destruct (IH _ _ _ Hrest) as [IHk IHu].
        split.
        -- cbn [map]. now rewrite IHk.
        -- cbn [flat_map]. rewrite (preorder_dict _ []) by reflexivity.
           cbn [flat_map app List.filter].
           change (is_leaf (label _)) with true. cbv iota.
           constructor; [|exact IHu]. exists c, s. reflexivity.
      * apply IH.
Qed.

Lemma get_children_spec (conn : database) (depth : nat) :
  forall parent_id n items n',
    get_children uuid4 conn depth parent_id n = Ok (items, n') ->
    map node_kind items =
      map Some (omap row_emits (select_children conn parent_id)) /\
    Forall has_url (forest_bookmarks items).
Proof.
  induction depth as [|depth IH]; intros parent_id n items n';
    [discriminate|].
  cbn [get_children]. apply emit_rows_spec.
  intros bid m cs m' Hcs. exact (proj2 (IH _ _ _ _ Hcs)).
Qed.

Lemma in_insert_row r x l : In r (insert_row x l) -> r = x \/ In r l.
Proof.
  induction l as [|y l IH]; cbn [insert_row].
  - intros [<-|[]]. now left.
  - destruct (position_le (b_position x) (b_position y)).
    + intros [<-|H]; [now left|now right].
    + intros [<-|H]; [right; now left|].
      destruct (IH H) as [->|Hin]; [now left|right; now right].
Qed.

Lemma in_order_by_position r l : In r (order_by_position l) -> In r l.
Proof.
  induction l as [|x l IH]; cbn; [easy|].
  intros H. apply in_insert_row in H as [->|H]; [now left|right; auto].
Qed.

Lemma in_select_children (conn : database) parent_id bid btype title url :
  In (bid, btype, title, url) (select_children conn parent_id) ->
  exists r, In r (moz_bookmarks conn) /\ b_id r = bid /\ b_type r = btype /\
            b_parent r = Some parent_id.
Proof.
  unfold select_children. rewrite in_map_iff. intros (r & [= <- <- <- <-] & Hin).
  apply in_order_by_position, List.filter_In in Hin as [Hin Hp].
  exists r. repeat split; try assumption.
  unfold has_parent in Hp. destruct (b_parent r) as [p|]; [|discriminate].
  apply Z.eqb_eq in Hp. now subst.
Qed.

Lemma emit_rows_returns (self : Z -> nat -> result (list value * nat)) rows :
  (forall bid btype title url, In (bid, btype, title, url) rows ->
     type_is btype 2 = true -> forall n, exists r, self bid n = Ok r) ->
  forall n, exists r, emit_rows uuid4 self rows n = Ok r.
Proof.
  induction rows as [|[[[bid btype] title] url] rows IH]; intros Hself n.
  - eexists. reflexivity.
  - assert (IH' : forall n, exists r, emit_rows uuid4 self rows n = Ok r).
    { apply IH. intros b t ti u Hin. apply (Hself b t ti u). now right. }
    cbn [emit_rows]. destruct (type_is btype 2) eqn:Hfolder.
    + destruct (Hself bid btype title url (or_introl eq_refl) Hfolder (S n))
        as [[cs n1] ->]. cbn [mbind result_bind].
      destruct (IH' n1) as [[items n2] ->]. eexists. reflexivity.
    + destruct (type_is btype 1 && truthy url).
      * destruct (IH' (S n)) as [[items n2] ->]. eexists. reflexivity.
      * apply IH'.
Qed.

(** On a ranked store [get_children] returns as soon as the depth bound
    exceeds the rank of the parent. *)
Lemma get_children_returns (conn : database) (rank : Z -> nat) :
  ranked conn rank ->
  forall depth parent_id n,
    (rank parent_id < depth)%nat ->
    exists r, get_children uuid4 conn depth parent_id n = Ok r.
Proof.
  intros Hrank. induction depth as [|depth IH]; intros parent_id n Hlt; [lia|].
  cbn [get_children]. apply emit_rows_returns.
  intros bid btype title url Hin Hfolder m.
  apply in_select_children in Hin as (r & Hin & <- & <- & Hp).
  apply IH. specialize (Hrank r parent_id Hin Hp Hfolder). lia.
Qed.

End TreeBuilderFacts.

Section TreeBuilderClaims.
Import ExportToSafari.

(** C5.  Whenever [get_children] returns, the list it built corresponds,
    in order, to exactly those query rows that are folders or are
    bookmark-type rows with a present, non-empty url (a bookmark-type row
    whose url is null or empty contributes no node, and each Bookmark node
    carries the url of its row), and every bookmark anywhere in the built
    tree has a non-empty [URLString]. *)
Theorem C5_dangling_rows_dropped uuid4 conn depth parent_id n items n' :
  get_children uuid4 conn depth parent_id n = Ok (items, n') ->
  map node_kind items =
    map Some (omap row_emits (select_children conn parent_id)) /\
  Forall has_url (forest_bookmarks items) /\
  (forall id title, row_emits (id, Some 1%Z, title, None) = None) /\
  (forall id title, row_emits (id, Some 1%Z, title, Some "") = None).
Proof.
  intros H. destruct (get_children_spec uuid4 conn depth _ _ _ _ H) as [Hk Hu].
  repeat split; assumption.
Qed.

Lemma C5_dangling_rows_dropped_witness :
  exists items n',
    get_children sample_uuid4 sample_store 5 1 0 = Ok (items, n') /\
    length items = 2%nat /\
    map node_kind items =
      map Some (omap row_emits (select_children sample_store 1)) /\
    Forall has_url (forest_bookmarks items) /\
    (forall id title, row_emits (id, Some 1%Z, title, None) = None) /\
    (forall id title, row_emits (id, Some 1%Z, title, Some "") = None).
Proof.
  eexists _, _. split; [reflexivity|]. split; [reflexivity|].
  eapply (C5_dangling_rows_dropped sample_uuid4 sample_store 5 1 0).
  reflexivity.
Defined.



End TreeBuilderClaims.


(** *** extract_domain and the domain counter *)

Section DomainFacts.
Import AnalyzeBookmarks.

Variable urlparse_netloc : string -> result string.

Lemma extract_domain_returns (url : string) :
  exists domain, extract_domain urlparse_netloc url = Ok domain.
Proof.
  unfold extract_domain, try_except.
  destruct (urlparse_netloc url) as [netloc|e]; cbn [mbind result_bind];
    eexists; reflexivity.
Qed.

Lemma extract_domain_unknown (url : string) e :
  urlparse_netloc url = Raise e ->
  extract_domain urlparse_netloc url = Ok "unknown".
Proof. intros H. unfold extract_domain. now rewrite H. Qed.

Lemma count_domains_returns (bookmarks : list BookmarkRecord) :
  forall domains,
    exists final, count_domains urlparse_netloc bookmarks domains = Ok final.
Proof.
  induction bookmarks as [|bm rest IH]; intros domains; cbn [count_domains].
  - eexists. reflexivity.
  - destruct (extract_domain_returns (default "" (bm_url bm))) as [d ->].
    cbn [mbind result_bind]. apply IH.
Qed.

Lemma incr_lookup domain (domains : gmap string nat) :
  incr domain domains !! domain = Some (S (default 0%nat (domains !! domain))).
Proof. unfold incr. rewrite lookup_insert_eq. f_equal. lia. Qed.

End DomainFacts.

Section DomainClaims.
Import AnalyzeBookmarks.

(** C10.  Whatever the URL parser does on the given string (return a
    network location or raise any exception), [extract_domain] returns a
    string and raises nothing; when the parser raises, the string returned
    is "unknown". *)
Theorem C10_extract_domain_total
    (urlparse_netloc : string -> result string) (url : string) :
  exists domain,
    extract_domain urlparse_netloc url = Ok domain /\
    (forall e, urlparse_netloc url = Raise e -> domain = "unknown").
Proof.
  unfold extract_domain, try_except.
  destruct (urlparse_netloc url) as [netloc|e]; cbn [mbind result_bind];
    eexists; (split; [reflexivity|]).
  - discriminate.
  - reflexivity.
Qed.

Lemma C10_extract_domain_total_witness :
  exists domain,
    extract_domain Urllib.urlsplit_netloc "http://[::1" = Ok domain /\
    (forall e, Urllib.urlsplit_netloc "http://[::1" = Raise e ->
               domain = "unknown").
Proof. apply (C10_extract_domain_total Urllib.urlsplit_netloc "http://[::1"). Defined.

(** C3 (as amended).  A record whose url makes the URL parser raise is
    mapped to the domain "unknown", the count of "unknown" goes up by one,
    and the loop over the records goes on to the end and returns a
    counter. *)
Theorem C3_parser_failure_counts_unknown
    (urlparse_netloc : string -> result string)
    (bm : BookmarkRecord) (rest : list BookmarkRecord)
    (domains : gmap string nat) (e : exn) :
  urlparse_netloc (default "" (bm_url bm)) = Raise e ->
  extract_domain urlparse_netloc (default "" (bm_url bm)) = Ok "unknown" /\
  count_domains urlparse_netloc (bm :: rest) domains =
    count_domains urlparse_netloc rest (incr "unknown" domains) /\
  incr "unknown" domains !! "unknown" =
    Some (S (default 0%nat (domains !! "unknown"))) /\
  exists final, count_domains urlparse_netloc (bm :: rest) domains = Ok final.
Proof.
  intros H. pose proof (extract_domain_unknown _ _ _ H) as Hd.
  split; [exact Hd|]. split; [cbn [count_domains]; now rewrite Hd|].
  split; [apply incr_lookup|apply count_domains_returns].
Qed.

Lemma C3_parser_failure_counts_unknown_witness :
  extract_domain Urllib.urlsplit_netloc "http://[::1" = Ok "unknown" /\
  count_domains Urllib.urlsplit_netloc
     (record "http://[::1" :: [record "http://example.com/"]) ∅ =
    count_domains Urllib.urlsplit_netloc [record "http://example.com/"]
      (incr "unknown" ∅) /\
  incr "unknown" (∅ : gmap string nat) !! "unknown" =
    Some (S (default 0%nat ((∅ : gmap string nat) !! "unknown"))) /\
  exists final,
    count_domains Urllib.urlsplit_netloc
      (record "http://[::1" :: [record "http://example.com/"]) ∅ = Ok final.
Proof.
  apply (C3_parser_failure_counts_unknown Urllib.urlsplit_netloc
           (record "http://[::1") [record "http://example.com/"] ∅ ValueError).
  reflexivity.
Defined.

(** C3 (counterexample).  The string "not a url" is parsed without any
    exception, with an empty network location: the record is counted under
    the empty domain and the counter has no "unknown" entry. *)
Lemma C3_not_a_url_counts_empty_domain :
  Urllib.urlsplit_netloc "not a url" = Ok "" /\
  extract_domain Urllib.urlsplit_netloc "not a url" = Ok "" /\
  exists final,
    count_domains Urllib.urlsplit_netloc [record "not a url"] ∅ = Ok final /\
    final !! "" = Some 1%nat /\ final !! "unknown" = None.
Proof.
  split; [reflexivity|]. split; [reflexivity|].
  eexists. split; [reflexivity|]. split; reflexivity.
Qed.

Example extract_domain_www :
  extract_domain Urllib.urlsplit_netloc "https://WWW.Example.com/page"
    = Ok "example.com" /\
  extract_domain Urllib.urlsplit_netloc "http://example.com/other"
    = Ok "example.com".
Proof. split; reflexivity. Qed.

End DomainClaims.


(** *** The hosting-platform rollup *)

Section HostingFacts.
Import AnalyzeBookmarks.

Lemma string_length_app (p s : string) :
  String.length (p +:+ s) = (String.length p + String.length s)%nat.
Proof. induction p as [|c p IH]; simpl; [reflexivity|now rewrite IH]. Qed.

Lemma string_drop_app (p s : string) :
  Urllib.string_drop (String.length p) (p +:+ s) = s.
Proof. induction p as [|c p IH]; [now destruct s|exact IH]. Qed.

Lemma string_drop_split (n : nat) :
  forall s, exists p, s = p +:+ Urllib.string_drop n s.
Proof.
  induction n as [|n IH]; intros s.
  - exists "". now destruct s.
  - destruct s as [|c s]; [now exists ""|].
    destruct (IH s) as [p Hp]. exists (String c p).
    change (String c s = String c (p +:+ Urllib.string_drop n s)).
    f_equal. exact Hp.
Qed.

(** [endswith] looks at the last characters only. *)
Lemma endswith_iff (s suffix : string) :
  endswith s suffix = true <-> exists p, s = p +:+ suffix.
Proof.
  unfold endswith. split.
  - intros H. apply andb_prop in H as [_ H]. apply String.eqb_eq in H.
    destruct (string_drop_split (String.length s - String.length suffix) s)
      as [p Hp].
    exists p. now rewrite H in Hp.
  - intros [p ->]. rewrite string_length_app. apply andb_true_intro. split.
    + apply Nat.leb_le. lia.
    + replace (String.length p + String.length suffix - String.length suffix)%nat
        with (String.length p) by lia.
      rewrite string_drop_app. apply String.eqb_refl.
Qed.

Section OneDomain.
Variables (domain : string) (count : nat).

Lemma fold_step_other (hs : list string) (h : string) :
  forall hosting, ~ In h hs -> foldl (add_to_bucket domain count) hosting hs !! h = hosting !! h.
Proof.
  induction hs as [|h' hs IH]; intros hosting Hnot; [reflexivity|].
  cbn [foldl]. rewrite IH by (intros Hin; apply Hnot; now right).
  unfold add_to_bucket. destruct (endswith domain h'); [|reflexivity].
  apply lookup_insert_ne. intros ->. apply Hnot. now left.
Qed.

Lemma fold_step_in (hs : list string) (h : string) :
  forall hosting, List.NoDup hs -> In h hs ->
    foldl (add_to_bucket domain count) hosting hs !! h =
    if endswith domain h then Some (default 0 (hosting !! h) + count)%nat
    else hosting !! h.
Proof.
  induction hs as [|h' hs IH]; intros hosting Hnd Hin; [destruct Hin|].
  apply List.NoDup_cons_iff in Hnd as [Hfresh Hnd]. cbn [foldl].
  destruct Hin as [->|Hin].
  - rewrite fold_step_other by assumption. unfold add_to_bucket.
    destruct (endswith domain h); [apply lookup_insert_eq|reflexivity].
  - rewrite IH by assumption.
    assert (Hne : h' <> h) by (intros ->; contradiction).
    unfold add_to_bucket. destruct (endswith domain h'); [|reflexivity].
    now rewrite lookup_insert_ne.
Qed.
End OneDomain.

Lemma hosting_suffixes_nodup : List.NoDup hosting_suffixes.
Proof.
  unfold hosting_suffixes.
  repeat (apply List.NoDup_cons; [cbn; intuition discriminate|]).
  apply List.NoDup_nil.
Qed.

Lemma hosting_init_lookup h : In h hosting_suffixes -> hosting_init !! h = Some 0%nat.
Proof.
  cbn. intros H.
  repeat (destruct H as [<-|H]; [vm_compute; reflexivity|]). destruct H.
Qed.

Lemma add_domain_lookup domain count (hosting : gmap string nat) h :
  In h hosting_suffixes ->
  add_domain domain count hosting !! h =
  if endswith domain h then Some (default 0 (hosting !! h) + count)%nat
  else hosting !! h.
Proof.
  intros Hin. unfold add_domain.
  exact (fold_step_in domain count hosting_suffixes h hosting
           hosting_suffixes_nodup Hin).
Qed.

(** Each bucket of the rollup is the sum of the counts of the domains that
    end in its suffix. *)
Lemma hosting_rollup_total (domains : gmap string nat) h :
  In h hosting_suffixes ->
  hosting_rollup domains !! h = Some (suffix_total h domains).
Proof.
  intros Hin. unfold hosting_rollup, suffix_total.
  induction domains as [|d c m Hfresh Hfirst IH] using map_first_key_ind.
  - rewrite map_fold_empty, map_to_list_empty. now apply hosting_init_lookup.
  - rewrite map_fold_insert_first_key by assumption.
    rewrite map_to_list_insert_first_key by assumption.
    rewrite add_domain_lookup by assumption. rewrite IH.
    cbn [map list_sum fst snd default]. unfold list_sum. simpl.
    destruct (endswith d h); [f_equal; lia|reflexivity].
Qed.

(** C8.  The bucket of each hosting suffix [h] is the sum of the counts of
    all domains that end with the characters of [h]: [endswith] holds
    exactly for the strings of the form [p ++ h], for any [p] (empty, or
    not ending in a dot), so "foo.github.io", the bare "github.io" and
    "mygithub.io" all count for "github.io". *)
Theorem C8_rollup_by_plain_suffix (domains : gmap string nat) (h : string) :
  In h hosting_suffixes ->
  hosting_rollup domains !! h = Some (suffix_total h domains) /\
  (forall d, endswith d h = true <-> exists p, d = p +:+ h) /\
  Forall (fun d => endswith d "github.io" = true)
         ["foo.github.io"; "github.io"; "mygithub.io"].
Proof.
  intros Hin. split; [now apply hosting_rollup_total|].
  split; [intros d; apply endswith_iff|].
  repeat constructor.
Qed.

Lemma C8_rollup_by_plain_suffix_witness :
  (hosting_rollup sample_domains !! "github.io" =
     Some (suffix_total "github.io" sample_domains) /\
   (forall d, endswith d "github.io" = true <-> exists p, d = p +:+ "github.io") /\
   Forall (fun d => endswith d "github.io" = true)
          ["foo.github.io"; "github.io"; "mygithub.io"]) /\
  suffix_total "github.io" sample_domains = 9%nat.
Proof.
  split.
  - apply (C8_rollup_by_plain_suffix sample_domains "github.io").
    cbn. now left.
  - vm_compute. reflexivity.
Defined.

End HostingFacts.


(** *** Further properties of flatten_nested_folders *)

Section FlattenEdges.

Lemma dict_set_absent (d : dict) key v :
  dict_get d key = None -> dict_set d key v = d ++ [(key, v)].
Proof.
  induction d as [|[k w] d IH]; cbn [dict_get dict_set app]; [reflexivity|].
  destruct (String.eqb k key); [discriminate|].
  intros H. now rewrite IH.
Qed.

(** X1.  When the [Children] entry of a dict is [None], a boolean or a
    number, the loop over it cannot start: [flatten_nested_folders] raises
    [TypeError], for a folder and for any other dict alike. *)
Theorem X1_children_not_iterable (d : dict) (v : value) :
  dict_get d "Children" = Some v ->
  v = VNone \/ (exists b, v = VBool b) \/ (exists n, v = VInt n) ->
  flatten_nested_folders (VDict d) = Raise TypeError.
Proof.
  intros Hget Hv. rewrite flatten_nested_folders_eq. cbn [flatten_body].
  unfold dict_mem, dict_get_default. rewrite Hget.
  destruct Hv as [->|[[b ->]|[n ->]]]; destruct (is_list_type d); reflexivity.
Qed.

Lemma X1_children_not_iterable_witness :
  flatten_nested_folders
    (VDict [("WebBookmarkType", TYPE_LIST); ("Children", VInt 3)]) =
  Raise TypeError.
Proof.
  apply (X1_children_not_iterable _ (VInt 3)); [reflexivity|].
  right. right. now exists 3%Z.
Defined.

(** X2.  A dict without a [Children] entry: a folder
    ([WebBookmarkTypeList]) comes back with an empty [Children] list
    added as its last entry, any other dict comes back unchanged. *)
Theorem X2_missing_children (d : dict) :
  dict_get d "Children" = None ->
  flatten_nested_folders (VDict d) =
  Ok (VDict (if is_list_type d then d ++ [("Children", VList [])] else d)).
Proof.
  intros Hget. rewrite flatten_nested_folders_eq. cbn [flatten_body].
  unfold dict_mem, dict_get_default. rewrite Hget.
  destruct (is_list_type d); [|reflexivity].
  cbn [py_iter for_each mbind result_bind]. now rewrite dict_set_absent.
Qed.

Lemma X2_missing_children_witness :
  flatten_nested_folders
    (VDict [("WebBookmarkType", TYPE_LIST); ("Title", VStr "A")]) =
  Ok (VDict [("WebBookmarkType", TYPE_LIST); ("Title", VStr "A");
             ("Children", VList [])]).
Proof.
  apply (X2_missing_children
           [("WebBookmarkType", TYPE_LIST); ("Title", VStr "A")]).
  reflexivity.
Defined.

(** X3.  Whenever [flatten_nested_folders] returns on a dict, the result is
    a dict with the same entries other than [Children], in the same order
    (the node itself is never dropped or retitled), and its [Children]
    entry, when it has one, is a list. *)
Theorem X3_node_kept (d : dict) (v' : value) :
  flatten_nested_folders (VDict d) = Ok v' ->
  exists d', v' = VDict d' /\ label d' = label d /\
    (dict_get d' "Children" = None \/
     exists cs, dict_get d' "Children" = Some (VList cs)).
Proof.
  rewrite flatten_nested_folders_eq. cbn [flatten_body].
  destruct (py_iter (dict_get_default d "Children" (VList []))) as [cs|e];
    cbn [mbind result_bind].
  - destruct (is_list_type d).
    + destruct (for_each _ cs) as [out|e]; cbn [mbind result_bind];
        [|discriminate].
      intros [= <-]. eexists. split; [reflexivity|].
      split; [apply label_dict_set|]. right. eexists. apply dict_get_set_eq.
    + unfold dict_mem. destruct (dict_get d "Children") as [c|] eqn:Hc.
      * destruct (for_each _ cs) as [out|e]; cbn [mbind result_bind];
          [|discriminate].
        intros [= <-]. eexists. split; [reflexivity|].
        split; [apply label_dict_set|]. right. eexists. apply dict_get_set_eq.
      * intros [= <-]. exists d. repeat split. now left.
  - destruct (is_list_type d); [discriminate|].
    unfold dict_mem. destruct (dict_get d "Children") eqn:Hc; [discriminate|].
    intros [= <-]. exists d. repeat split. now left.
Qed.

Lemma X3_node_kept_witness :
  exists d', encode sample_flat = VDict d' /\
    label d' = label [("WebBookmarkType", TYPE_LIST); ("Title", VStr "A");
                      ("WebBookmarkUUID", VStr "U1");
                      ("Children", VList (map encode
                         [Folder "A" "U2" [Bookmark "http://x.org/" "X" "U3"];
                          Folder "B" "U4" [Bookmark "http://y.org/" "Y" "U5"]]))] /\
    (dict_get d' "Children" = None \/
     exists cs, dict_get d' "Children" = Some (VList cs)).
Proof. apply X3_node_kept. reflexivity. Defined.




End FlattenEdges.


Section FlattenOnModel.

Lemma flatten_each_normalize (cs : list node) :
  Forall (fun c => flatten_nested_folders (encode c) = Ok (encode (normalize c)))
         cs ->
  for_each (one flatten_nested_folders) (map encode cs) =
  Ok (map encode (map normalize cs)).
Proof.
  induction 1 as [|c cs Hc _ IH]; [reflexivity|].
  cbn [map for_each]. rewrite IH.
  change (one flatten_nested_folders (encode c))
    with (y ← flatten_nested_folders (encode c); Ok [y]).
  rewrite Hc. reflexivity.
Qed.

Lemma flatten_normalize_strong (t : node) :
  flatten_nested_folders (encode t) = Ok (encode (normalize t)) /\
  match t with
  | Folder _ _ cs =>
      Forall (fun c => flatten_nested_folders (encode c) =
                       Ok (encode (normalize c))) cs
  | Bookmark _ _ _ => True
  end.
Proof.
  induction t as [title uuid cs IH|url t u] using node_nested_ind;
    [|split; [reflexivity|exact I]].
  assert (Hcs : Forall (fun c => flatten_nested_folders (encode c) =
                                 Ok (encode (normalize c))) cs).
  { eapply List.Forall_impl; [|exact IH]. intros c Hc. exact (proj1 Hc). }
  split; [|exact Hcs].
  rewrite flatten_folder. cbn [normalize encode].
  assert (Hall : for_each (flatten_child flatten_nested_folders (VStr title))
                          (map encode cs) =
                 Ok (map encode (flat_map (splice normalize title) cs))).
  { clear Hcs. induction IH as [|c cs [Hc Hsub] _ IHcs]; [reflexivity|].
    cbn [map for_each flat_map]. rewrite IHcs, List.map_app.
    destruct c as [t' u' cs'|url t' u']; [|reflexivity].
    rewrite flatten_child_folder. unfold splice.
    destruct (String.eqb t' title).
    - rewrite (flatten_each_normalize cs' Hsub). reflexivity.
    - unfold one. rewrite Hc. reflexivity. }
  rewrite Hall. reflexivity.
Qed.

(** On encoded trees the code computes [normalize]. *)
Lemma flatten_on_trees (t : node) :
  flatten_nested_folders (encode t) = Ok (encode (normalize t)).
Proof. exact (proj1 (flatten_normalize_strong t)). Qed.

Lemma normalize_counts_strong (t : node) :
  (bookmark_count (normalize t) = bookmark_count t /\
   folder_count (normalize t) <= folder_count t)%nat /\
  match t with
  | Folder _ _ cs =>
      Forall (fun c => bookmark_count (normalize c) = bookmark_count c /\
                       folder_count (normalize c) <= folder_count c)%nat cs
  | Bookmark _ _ _ => True
  end.
Proof.
  induction t as [title uuid cs IH|url t u] using node_nested_ind;
    [|split; [split; [reflexivity|apply Nat.le_refl]|exact I]].
  assert (Hcs : Forall (fun c =>
                  bookmark_count (normalize c) = bookmark_count c /\
                  folder_count (normalize c) <= folder_count c)%nat cs).
  { eapply List.Forall_impl; [|exact IH]. intros c Hc. exact (proj1 Hc). }
  split; [|exact Hcs]. cbn [normalize bookmark_count folder_count]. clear Hcs.
  induction IH as [|c cs [[Hb Hf] Hsub] _ [IHb IHf]]; [split; auto|].
  cbn [flat_map map]. rewrite !List.map_app, !list_sum_app.
  unfold list_sum at 3 6. cbn [fold_right].
  fold (list_sum (map bookmark_count cs)). fold (list_sum (map folder_count cs)).
  assert (Hhead :
    (list_sum (map bookmark_count (splice normalize title c)) = bookmark_count c /\
     list_sum (map folder_count (splice normalize title c)) <= folder_count c)%nat).
  { destruct c as [t' u' cs'|url t' u']; [|split; cbn; lia].
    unfold splice. destruct (String.eqb t' title).
    - cbn [bookmark_count folder_count]. clear Hb Hf.
      induction Hsub as [|c' cs' [Hb' Hf'] _ [IHb' IHf']]; [cbn; lia|].
      cbn [map]. unfold list_sum in *. cbn [fold_right] in *. lia.
    - cbn [map]. unfold list_sum. cbn [fold_right]. lia. }
  destruct Hhead as [Hhb Hhf]. lia.
Qed.

(** X5.  On every tree of Folder and Bookmark nodes
    [flatten_nested_folders] returns, and it returns the encoding of a
    tree of Folder and Bookmark nodes again; the root keeps its title and
    identifier, the number of bookmarks is unchanged and the number of
    folders does not grow. *)
Theorem X5_flatten_well_formed (t : node) :
  exists t',
    flatten_nested_folders (encode t) = Ok (encode t') /\
    t' = normalize t /\
    bookmark_count t' = bookmark_count t /\
    (folder_count t' <= folder_count t)%nat /\
    match t, t' with
    | Folder title u _, Folder title' u' _ => title' = title /\ u' = u
    | Bookmark _ _ _, _ => t' = t
    | _, _ => False
    end.
Proof.
  exists (normalize t). split; [apply flatten_on_trees|]. split; [reflexivity|].
  destruct (normalize_counts_strong t) as [[Hb Hf] _].
  split; [exact Hb|]. split; [exact Hf|].
  destruct t; cbn [normalize]; auto.
Qed.

End FlattenOnModel.

Section ShortChains.

Lemma normalize_titled t c :
  is_folder_titled t (normalize c) = is_folder_titled t c.
Proof. destruct c; reflexivity. Qed.

Lemma short_chains_children t u cs c :
  short_chains (Folder t u cs) = true -> In c cs -> short_chains c = true.
Proof.
  cbn [short_chains]. rewrite List.forallb_forall. intros H Hin.
  specialize (H c Hin). destruct c; [|reflexivity].
  now apply andb_prop in H as [_ H].
Qed.

Lemma short_chains_distinct_strong (t : node) :
  (short_chains t = true -> distinct_nesting (normalize t) = true) /\
  match t with
  | Folder _ _ cs =>
      Forall (fun c => short_chains c = true ->
                       distinct_nesting (normalize c) = true) cs
  | Bookmark _ _ _ => True
  end.
Proof.
  induction t as [title uuid cs IH|url t u] using node_nested_ind;
    [|split; [reflexivity|exact I]].
  assert (Hcs : Forall (fun c => short_chains c = true ->
                                 distinct_nesting (normalize c) = true) cs).
  { eapply List.Forall_impl; [|exact IH]. intros c Hc. exact (proj1 Hc). }
  split; [|exact Hcs]. intros Hshort. cbn [normalize distinct_nesting].
  apply List.forallb_forall. intros x Hx.
  apply in_flat_map in Hx as (c & Hc & Hx).
  rewrite List.Forall_forall in IH. destruct (IH c Hc) as [Hdist Hsub].
  pose proof (short_chains_children _ _ _ _ Hshort Hc) as Hshort_c.
  cbn [short_chains] in Hshort. rewrite List.forallb_forall in Hshort.
  specialize (Hshort c Hc).
  destruct c as [t' u' cs'|url t' u'].
  - unfold splice in Hx. destruct (String.eqb t' title) eqn:Heq.
    + apply in_map_iff in Hx as (c' & <- & Hc').
      apply andb_prop in Hshort as [Hnone _].
      rewrite normalize_titled. apply andb_true_intro. split.
      * apply negb_true_iff. apply negb_true_iff in Hnone.
        destruct (is_folder_titled title c') eqn:Ht; [|reflexivity].
        rewrite <- Hnone. symmetry. apply List.existsb_exists. eauto.
      * rewrite List.Forall_forall in Hsub. apply (Hsub c' Hc').
        exact (short_chains_children _ _ _ _ Hshort_c Hc').
    + destruct Hx as [<-|[]]. rewrite normalize_titled.
      cbn [is_folder_titled]. rewrite Heq. cbn [negb andb]. now apply Hdist.
  - destruct Hx as [<-|[]]. reflexivity.
Qed.

(** X6.  When no chain of same-titled folders is longer than two (a child
    folder with its parent's title holds no folder of that title), one pass
    removes the defect everywhere: in the tree returned no folder holds a
    folder of its own title, so a second pass returns the same tree. *)
Theorem X6_short_chains_repaired (t : node) :
  short_chains t = true ->
  distinct_nesting (normalize t) = true /\
  flatten_nested_folders (encode t) = Ok (encode (normalize t)) /\
  flatten_nested_folders (encode (normalize t)) = Ok (encode (normalize t)).
Proof.
  intros Hshort.
  pose proof (proj1 (short_chains_distinct_strong t) Hshort) as Hd.
  split; [exact Hd|]. split; [apply flatten_on_trees|].
  now apply flatten_distinct.
Qed.

Lemma X6_short_chains_repaired_witness :
  distinct_nesting (normalize sample_nested) = true /\
  flatten_nested_folders (encode sample_nested) =
    Ok (encode (normalize sample_nested)) /\
  flatten_nested_folders (encode (normalize sample_nested)) =
    Ok (encode (normalize sample_nested)).
Proof. apply (X6_short_chains_repaired sample_nested). reflexivity. Defined.

End ShortChains.


(** *** Further properties of the domain analysis *)

Section DomainExtras.
Import AnalyzeBookmarks AnalyzeModel.

Lemma lower_ascii_idem c : lower_ascii (lower_ascii c) = lower_ascii c.
Proof. destruct c as [[] [] [] [] [] [] [] []]; reflexivity. Qed.

Lemma lower_idem s : lower (lower s) = lower s.
Proof.
  induction s as [|c s IH]; [reflexivity|].
  cbn [lower]. now rewrite lower_ascii_idem, IH.
Qed.

Lemma lower_string_drop n :
  forall s, lower (Urllib.string_drop n s) = Urllib.string_drop n (lower s).
Proof.
  induction n as [|n IH]; intros s; [now destruct s|].
  destruct s as [|c s]; [reflexivity|]. cbn [Urllib.string_drop lower]. apply IH.
Qed.

Lemma extract_domain_parsed
    (urlparse_netloc : string -> result string) (url netloc : string) :
  urlparse_netloc url = Ok netloc ->
  extract_domain urlparse_netloc url =
  Ok (if startswith (lower netloc) "www."
      then Urllib.string_drop 4 (lower netloc) else lower netloc).
Proof. intros H. unfold extract_domain. rewrite H. reflexivity. Qed.

(** X7.  Whatever the URL parser returns, the domain returned by
    [extract_domain] is in lower case: lowering it again changes nothing
    (this holds for the sentinel "unknown" too). *)
Theorem X7_domain_lower_case
    (urlparse_netloc : string -> result string) (url domain : string) :
  extract_domain urlparse_netloc url = Ok domain -> lower domain = domain.
Proof.
  destruct (urlparse_netloc url) as [netloc|e] eqn:Hparse.
  - rewrite (extract_domain_parsed _ _ _ Hparse).
    destruct (startswith (lower netloc) "www."); intros H.
    + replace domain with (Urllib.string_drop 4 (lower netloc)) by congruence.
      rewrite lower_string_drop. now rewrite lower_idem.
    + replace domain with (lower netloc) by congruence. apply lower_idem.
  - rewrite (extract_domain_unknown _ _ _ Hparse). intros [= <-]. reflexivity.
Qed.

Lemma X7_domain_lower_case_witness : lower "example.com" = "example.com".
Proof.
  apply (X7_domain_lower_case Urllib.urlsplit_netloc
           "https://WWW.Example.com/page").
  reflexivity.
Defined.

Lemma incr_lookup_other domain d (domains : gmap string nat) :
  domain <> d -> incr domain domains !! d = domains !! d.
Proof. intros Hne. unfold incr. now rewrite lookup_insert_ne. Qed.

(** X8.  When the counting loop ends, the count of every domain [d] is its
    count before the loop plus the number of records that
    [extract_domain] maps to [d]: each record is counted once, under its
    own domain only. *)
Theorem X8_counter_counts_records
    (urlparse_netloc : string -> result string)
    (bookmarks : list BookmarkRecord) (domains final : gmap string nat)
    (d : string) :
  count_domains urlparse_netloc bookmarks domains = Ok final ->
  default 0%nat (final !! d) =
  (default 0%nat (domains !! d) +
   length (List.filter (domain_is urlparse_netloc d) bookmarks))%nat.
Proof.
  revert domains. induction bookmarks as [|bm rest IH]; intros domains.
  - intros [= <-]. cbn. lia.
  - cbn [count_domains List.filter]. unfold domain_is at 1.
    destruct (extract_domain urlparse_netloc (default "" (bm_url bm)))
      as [r|e] eqn:Hr; cbn [mbind result_bind]; [|discriminate].
    intros Hrest. rewrite (IH _ Hrest).
    destruct (String.eqb_spec r d) as [->|Hne].
    + rewrite incr_lookup. cbn [default length]. unfold id. lia.
    + rewrite incr_lookup_other by assumption. reflexivity.
Qed.

Lemma X8_counter_counts_records_witness :
  exists final,
    count_domains Urllib.urlsplit_netloc
      [record "https://www.example.com/a"; record "not a url";
       record "http://EXAMPLE.com/b"] ∅ = Ok final /\
    default 0%nat (final !! "example.com") =
    (default 0%nat ((∅ : gmap string nat) !! "example.com") +
     length (List.filter (domain_is Urllib.urlsplit_netloc "example.com")
               [record "https://www.example.com/a"; record "not a url";
                record "http://EXAMPLE.com/b"]))%nat.
Proof.
  eexists. split; [reflexivity|].
  apply (X8_counter_counts_records Urllib.urlsplit_netloc).
  reflexivity.
Defined.

End DomainExtras.

Section HostingExtras.
Import AnalyzeBookmarks.

Lemma hosting_init_other h :
  ~ In h hosting_suffixes -> hosting_init !! h = None.
Proof.
  intros Hnot. unfold hosting_init, hosting_suffixes in *.
  cbn [map list_to_map foldr uncurry fst snd].
  repeat (rewrite lookup_insert_ne
            by (intros <-; apply Hnot; cbn; tauto)).
  apply lookup_empty.
Qed.

Lemma hosting_rollup_other (domains : gmap string nat) h :
  ~ In h hosting_suffixes -> hosting_rollup domains !! h = None.
Proof.
  intros Hnot. unfold hosting_rollup.
  induction domains as [|d c m Hfresh Hfirst IH] using map_first_key_ind.
  - rewrite map_fold_empty. now apply hosting_init_other.
  - rewrite map_fold_insert_first_key by assumption.
    unfold add_domain. now rewrite fold_step_other.
Qed.

(** X9.  Whatever the counter of domains, the rollup has exactly the five
    hosting suffixes as its keys: no bucket is ever added or removed. *)
Theorem X9_rollup_keys (domains : gmap string nat) (h : string) :
  hosting_rollup domains !! h = None <-> ~ In h hosting_suffixes.
Proof.
  split.
  - intros Hnone Hin. rewrite hosting_rollup_total in Hnone by assumption.
    discriminate.
  - apply hosting_rollup_other.
Qed.

Lemma string_drop_empty n : Urllib.string_drop n "" = "".
Proof. now destruct n. Qed.

Lemma string_drop_add b :
  forall a s,
    Urllib.string_drop (b + a) s = Urllib.string_drop a (Urllib.string_drop b s).
Proof.
  induction b as [|b IH]; intros a s; [now destruct s|].
  destruct s as [|c s]; [now rewrite !string_drop_empty|].
  cbn [Nat.add Urllib.string_drop]. apply IH.
Qed.

(** Of two suffixes of one string the shorter is a suffix of the longer. *)
Lemma endswith_nested d h1 h2 :
  endswith d h1 = true -> endswith d h2 = true ->
  (String.length h1 <= String.length h2)%nat -> endswith h2 h1 = true.
Proof.
  unfold endswith. intros H1 H2 Hlen.
  apply andb_prop in H1 as [L1 E1]. apply andb_prop in H2 as [L2 E2].
  apply Nat.leb_le in L1, L2. apply String.eqb_eq in E1, E2.
  apply andb_true_intro. split; [now apply Nat.leb_le|].
  apply String.eqb_eq. rewrite <- E2 at 2.
  rewrite <- string_drop_add.
  replace (String.length d - String.length h2 +
           (String.length h2 - String.length h1))%nat
    with (String.length d - String.length h1)%nat by lia.
  exact E1.
Qed.

(** X10.  No string ends in two different hosting suffixes, so every
    domain is counted in at most one bucket of the rollup. *)
Theorem X10_one_bucket_per_domain (d h1 h2 : string) :
  In h1 hosting_suffixes -> In h2 hosting_suffixes ->
  endswith d h1 = true -> endswith d h2 = true -> h1 = h2.
Proof.
  intros Hin1 Hin2 E1 E2.
  destruct (Nat.le_ge_cases (String.length h1) (String.length h2)) as [Hle|Hle].
  - pose proof (endswith_nested d h1 h2 E1 E2 Hle) as Hn. clear E1 E2 Hle.
    cbn in Hin1, Hin2.
    repeat (destruct Hin1 as [<-|Hin1]; [|]);
      try contradiction;
      repeat (destruct Hin2 as [<-|Hin2]; [|]);
      try contradiction; try reflexivity; vm_compute in Hn; discriminate.
  - pose proof (endswith_nested d h2 h1 E2 E1 Hle) as Hn. clear E1 E2 Hle.
    cbn in Hin1, Hin2.
    repeat (destruct Hin1 as [<-|Hin1]; [|]);
      try contradiction;
      repeat (destruct Hin2 as [<-|Hin2]; [|]);
      try contradiction; try reflexivity; vm_compute in Hn; discriminate.
Qed.

Lemma X10_one_bucket_per_domain_witness : "github.io" = "github.io".
Proof.
  apply (X10_one_bucket_per_domain "foo.github.io" "github.io" "github.io");
    try reflexivity; cbn; tauto.
Defined.

End HostingExtras.


(** *** Further properties of the tree builder and the counter *)

Section BuilderModel.
Import ExportToSafari ExportDocument.

Variable uuid4 : nat -> string.

Lemma or_else_nonempty title dflt :
  nonempty dflt = true -> nonempty (or_else title dflt) = true.
Proof. intros H. destruct title as [[|c s]|]; auto. Qed.

Lemma list_sum_cons x l : list_sum (x :: l) = (x + list_sum l)%nat.
Proof. reflexivity. Qed.

Lemma emit_rows_built (self : Z -> nat -> result (list value * nat)) :
  (forall bid n cs n', self bid n = Ok (cs, n') -> built uuid4 n cs n') ->
  forall rows n items n',
    emit_rows uuid4 self rows n = Ok (items, n') -> built uuid4 n items n'.
Proof.
  intros Hself rows.
  induction rows as [|[[[bid btype] title] url] rows IH]; intros n items n'.
  - intros [= <- <-]. exists []. cbn. repeat split. lia.
  - cbn [emit_rows]. destruct (type_is btype 2).
    + destruct (self bid (S n)) as [[cs n1]|e] eqn:Hcs;
        cbn [mbind result_bind]; [|discriminate].
      destruct (emit_rows uuid4 self rows n1) as [[items' n2]|e] eqn:Hrest;
        cbn [mbind result_bind]; [|discriminate].
      intros [= <- <-].
      destruct (Hself _ _ _ _ Hcs) as (fc & -> & Hnc & -> & Huc).
      destruct (IH _ _ _ Hrest) as (fr & -> & Hnr & -> & Hur).
      exists (Folder (or_else title "Folder") (uuid4 n) fc :: fr).
      split; [reflexivity|]. split; [|split].
      * cbn [forallb named]. rewrite or_else_nonempty by reflexivity.
        now rewrite Hnc, Hnr.
      * cbn [map node_count]. rewrite list_sum_cons. lia.
      * cbn [flat_map uuids map node_count]. rewrite Huc, Hur, list_sum_cons.
        cbn [Nat.add seq map]. rewrite List.seq_app, List.map_app.
        reflexivity.
    + destruct (type_is btype 1 && truthy url) eqn:Hleaf; [|apply IH].
      apply andb_prop in Hleaf as [_ Hurl].
      destruct url as [[|c s]|]; try discriminate. cbn [default].
      destruct (emit_rows uuid4 self rows (S n)) as [[items' n2]|e] eqn:Hrest;
        cbn [mbind result_bind]; [|discriminate].
      intros [= <- <-].
      destruct (IH _ _ _ Hrest) as (fr & -> & Hnr & -> & Hur).
      exists (Bookmark (String c s)
                (or_else title (substring 0 50 (String c s))) (uuid4 n) :: fr).
      split; [reflexivity|]. split; [|split].
      * cbn [forallb named nonempty andb].
        rewrite or_else_nonempty by reflexivity. exact Hnr.
      * cbn [map node_count]. rewrite list_sum_cons. lia.
      * cbn [flat_map uuids map node_count app]. rewrite Hur, list_sum_cons.
        reflexivity.
Qed.

Lemma get_children_built (conn : database) (depth : nat) :
  forall parent_id n items n',
    get_children uuid4 conn depth parent_id n = Ok (items, n') ->
    built uuid4 n items n'.
Proof.
  induction depth as [|depth IH]; intros parent_id n items n'; [discriminate|].
  cbn [get_children]. apply emit_rows_built. intros bid m cs m'. apply IH.
Qed.

End BuilderModel.

Section BuiltForest.
Import ExportToSafari ExportDocument.

Lemma preorder_folder title uuid cs :
  preorder (encode (Folder title uuid cs)) =
  [("WebBookmarkType", TYPE_LIST); ("Title", VStr title);
   ("WebBookmarkUUID", VStr uuid)] :: flat_map preorder (map encode cs).
Proof. cbn [encode]. now rewrite (preorder_dict _ (map encode cs)). Qed.

Lemma preorder_forest_app l1 l2 :
  flat_map preorder (l1 ++ l2) = flat_map preorder l1 ++ flat_map preorder l2.
Proof. apply List.flat_map_app. Qed.

Lemma bookmarks_of_tree (t : node) :
  length (List.filter is_leaf (preorder (encode t))) = bookmark_count t.
Proof.
  induction t as [title uuid cs IH|url t u] using node_nested_ind;
    [|reflexivity].
  rewrite preorder_folder. cbn [List.filter bookmark_count].
  change (is_leaf _) with false. cbv iota.
  induction IH as [|c cs Hc _ IHcs]; [reflexivity|].
  cbn [map flat_map]. rewrite List.filter_app, length_app, Hc, IHcs.
  now rewrite list_sum_cons.
Qed.

Lemma bookmarks_of_forest (forest : list node) :
  length (forest_bookmarks (map encode forest)) =
  list_sum (map bookmark_count forest).
Proof.
  unfold forest_bookmarks. induction forest as [|t forest IH]; [reflexivity|].
  cbn [map flat_map]. rewrite List.filter_app, length_app, bookmarks_of_tree, IH.
  now rewrite list_sum_cons.
Qed.

Lemma node_count_split (t : node) :
  node_count t = (bookmark_count t + folder_count t)%nat.
Proof.
  induction t as [title uuid cs IH|url t u] using node_nested_ind;
    [|reflexivity].
  cbn [node_count bookmark_count folder_count].
  induction IH as [|c cs Hc _ IHcs]; [reflexivity|].
  cbn [map]. rewrite !list_sum_cons. lia.
Qed.

Lemma node_count_forest (forest : list node) :
  list_sum (map node_count forest) =
  (list_sum (map bookmark_count forest) + list_sum (map folder_count forest))%nat.
Proof.
  induction forest as [|t forest IH]; [reflexivity|].
  cbn [map]. rewrite !list_sum_cons, node_count_split. lia.
Qed.

Lemma uuids_of_tree (t : node) :
  map uuid_of (preorder (encode t)) = map (fun u => Some (VStr u)) (uuids t).
Proof.
  induction t as [title uuid cs IH|url t u] using node_nested_ind;
    [|reflexivity].
  rewrite preorder_folder. cbn [map uuids]. f_equal.
  induction IH as [|c cs Hc _ IHcs]; [reflexivity|].
  cbn [map flat_map]. now rewrite !List.map_app, Hc, IHcs.
Qed.

Lemma uuids_of_forest (forest : list node) :
  map uuid_of (flat_map preorder (map encode forest)) =
  map (fun u => Some (VStr u)) (flat_map uuids forest).
Proof.
  induction forest as [|t forest IH]; [reflexivity|].
  cbn [map flat_map]. now rewrite !List.map_app, uuids_of_tree, IH.
Qed.

Lemma nodup_map_injective {A B} (f : A -> B) (l : list A) :
  (forall x y, f x = f y -> x = y) -> List.NoDup l -> List.NoDup (map f l).
Proof.
  intros Hinj. induction 1 as [|x l Hx _ IH]; cbn [map]; constructor; auto.
  intros Hin. apply in_map_iff in Hin as (y & Hy & Hin).
  apply Hinj in Hy. now subst.
Qed.



(** X12.  On the tree built by [get_children], [cnt] raises nothing; the
    first count is the number of bookmarks of the tree, and the two counts
    together are the number of identifiers drawn while building it (one
    per node). *)
Theorem X12_cnt_of_built_tree uuid4 conn depth parent_id n items n' :
  get_children uuid4 conn depth parent_id n = Ok (items, n') ->
  exists b f,
    cnt (VList items) = Ok (b, f) /\
    b = length (forest_bookmarks items) /\
    n' = (n + b + f)%nat.
Proof.
  intros H. destruct (get_children_built uuid4 conn depth _ _ _ _ H)
    as (forest & -> & _ & -> & _).
  exists (list_sum (map bookmark_count forest)),
         (list_sum (map folder_count forest)).
  split; [|split].
  - rewrite cnt_eq. unfold cnt_body. cbn [py_iter mbind result_bind].
    now rewrite cnt_loop_forest.
  - now rewrite bookmarks_of_forest.
  - rewrite node_count_forest. lia.
Qed.

Lemma X12_cnt_of_built_tree_witness :
  exists items n' b f,
    get_children sample_uuid4 sample_store 5 1 0 = Ok (items, n') /\
    cnt (VList items) = Ok (b, f) /\
    b = length (forest_bookmarks items) /\
    n' = (0 + b + f)%nat.
Proof.
  eexists _, _. 
  destruct (X12_cnt_of_built_tree sample_uuid4 sample_store 5 1 0 _ _ eq_refl)
    as (b & f & H).
  exists b, f. split; [reflexivity|exact H].
Defined.

(** X13.  The identifiers of the nodes built by [get_children], read in
    document order, are the consecutive draws of the generator, each used
    once; when the generator never repeats a value, no two nodes of the
    tree share an identifier. *)
Theorem X13_identifiers_in_draw_order uuid4 conn depth parent_id n items n' :
  get_children uuid4 conn depth parent_id n = Ok (items, n') ->
  map uuid_of (flat_map preorder items) =
    map (fun k => Some (VStr (uuid4 k))) (seq n (n' - n)) /\
  ((forall i j, uuid4 i = uuid4 j -> i = j) ->
   List.NoDup (map uuid_of (flat_map preorder items))).
Proof.
  intros H. destruct (get_children_built uuid4 conn depth _ _ _ _ H)
    as (forest & -> & _ & -> & Hu).
  assert (Heq : map uuid_of (flat_map preorder (map encode forest)) =
                map (fun k => Some (VStr (uuid4 k)))
                    (seq n (n + list_sum (map node_count forest) - n))).
  { rewrite uuids_of_forest, Hu, List.map_map.
    replace (n + list_sum (map node_count forest) - n)%nat
      with (list_sum (map node_count forest)) by lia.
    reflexivity. }
  split; [exact Heq|].
  intros Hinj. rewrite Heq. apply nodup_map_injective; [|apply List.seq_NoDup].
  intros i j [= Hij]. now apply Hinj.
Qed.

Lemma X13_identifiers_in_draw_order_witness :
  exists items n',
    get_children sample_uuid4 sample_store 5 1 0 = Ok (items, n') /\
    map uuid_of (flat_map preorder items) =
      map (fun k => Some (VStr (sample_uuid4 k))) (seq 0 (n' - 0)) /\
    ((forall i j, sample_uuid4 i = sample_uuid4 j -> i = j) ->
     List.NoDup (map uuid_of (flat_map preorder items))).
Proof.
  eexists _, _. split; [reflexivity|].
  apply (X13_identifiers_in_draw_order sample_uuid4 sample_store 5 1 0).
  reflexivity.
Defined.

End BuiltForest.

Section BuilderTermination.
Import ExportToSafari ExportDocument.

Variable uuid4 : nat -> string.

Lemma emit_rows_mono (self1 self2 : Z -> nat -> result (list value * nat)) :
  (forall bid n r, self1 bid n = Ok r -> self2 bid n = Ok r) ->
  forall rows n r,
    emit_rows uuid4 self1 rows n = Ok r -> emit_rows uuid4 self2 rows n = Ok r.
Proof.
  intros Hself rows.
  induction rows as [|[[[bid btype] title] url] rows IH]; intros n r;
    [trivial|].
  cbn [emit_rows]. destruct (type_is btype 2).
  - destruct (self1 bid (S n)) as [[cs n1]|e] eqn:Hcs;
      cbn [mbind result_bind]; [|discriminate].
    rewrite (Hself _ _ _ Hcs). cbn [mbind result_bind].
    destruct (emit_rows uuid4 self1 rows n1) as [[items n2]|e] eqn:Hrest;
      cbn [mbind result_bind]; [|discriminate].
    now rewrite (IH _ _ Hrest).
  - destruct (type_is btype 1 && truthy url); [|apply IH].
    destruct (emit_rows uuid4 self1 rows (S n)) as [[items n2]|e] eqn:Hrest;
      cbn [mbind result_bind]; [|discriminate].
    now rewrite (IH _ _ Hrest).
Qed.

(** A result obtained within some depth bound is obtained within every
    larger one. *)
Lemma get_children_mono (conn : database) (depth depth' : nat) :
  (depth <= depth')%nat ->
  forall parent_id n r,
    get_children uuid4 conn depth parent_id n = Ok r ->
    get_children uuid4 conn depth' parent_id n = Ok r.
Proof.
  revert depth'. induction depth as [|depth IH]; intros depth' Hle pid n r;
    [discriminate|].
  destruct depth' as [|depth']; [lia|]. cbn [get_children].
  apply emit_rows_mono. intros bid m r'. apply IH. lia.
Qed.

Lemma emit_rows_raises_only (self : Z -> nat -> result (list value * nat)) :
  (forall bid n e, self bid n = Raise e -> e = RecursionError) ->
  forall rows n e,
    emit_rows uuid4 self rows n = Raise e -> e = RecursionError.
Proof.
  intros Hself rows.
  induction rows as [|[[[bid btype] title] url] rows IH]; intros n e;
    [discriminate|].
  cbn [emit_rows]. destruct (type_is btype 2).
  - destruct (self bid (S n)) as [[cs n1]|e'] eqn:Hcs; cbn [mbind result_bind].
    + destruct (emit_rows uuid4 self rows n1) as [[items n2]|e'] eqn:Hrest;
        cbn [mbind result_bind]; [discriminate|].
      intros [= <-]. exact (IH _ _ Hrest).
    + intros [= <-]. exact (Hself _ _ _ Hcs).
  - destruct (type_is btype 1 && truthy url); [|apply IH].
    destruct (emit_rows uuid4 self rows (S n)) as [[items n2]|e'] eqn:Hrest;
      cbn [mbind result_bind]; [discriminate|].
    intros [= <-]. exact (IH _ _ Hrest).
Qed.

Lemma get_children_raises_only (conn : database) (depth : nat) :
  forall parent_id n e,
    get_children uuid4 conn depth parent_id n = Raise e -> e = RecursionError.
Proof.
  induction depth as [|depth IH]; intros pid n e; [now intros [= <-]|].
  cbn [get_children]. apply emit_rows_raises_only. exact IH.
Qed.

Lemma emit_rows_raises (self : Z -> nat -> result (list value * nat))
    bid btype title url :
  (forall b n e, self b n = Raise e -> e = RecursionError) ->
  type_is btype 2 = true ->
  (forall n, self bid n = Raise RecursionError) ->
  forall rows, In (bid, btype, title, url) rows ->
  forall n, emit_rows uuid4 self rows n = Raise RecursionError.
Proof.
  intros Honly Hty Hbad rows.
  induction rows as [|[[[bid' btype'] title'] url'] rows IH]; intros Hin n;
    [destruct Hin|].
  destruct Hin as [[= -> -> -> ->]|Hin].
  - cbn [emit_rows]. rewrite Hty, Hbad. reflexivity.
  - specialize (IH Hin). cbn [emit_rows]. destruct (type_is btype' 2).
    + destruct (self bid' (S n)) as [[cs n1]|e] eqn:Hcs; cbn [mbind result_bind].
      * now rewrite IH.
      * now rewrite (Honly _ _ _ Hcs).
    + destruct (type_is btype' 1 && truthy url'); [|apply IH].
      now rewrite IH.
Qed.

Lemma in_insert_row_conv r x l : r = x \/ In r l -> In r (insert_row x l).
Proof.
  induction l as [|y l IH]; cbn [insert_row].
  - intros [->|[]]. now left.
  - destruct (position_le (b_position x) (b_position y)).
    + intros [->|H]; [now left|now right].
    + intros [->|[->|H]]; [right; apply IH; now left|now left|].
      right. apply IH. now right.
Qed.

Lemma in_order_by_position_conv r l : In r l -> In r (order_by_position l).
Proof.
  induction l as [|x l IH]; cbn; [easy|].
  intros [->|H]; apply in_insert_row_conv; [now left|right; auto].
Qed.

Lemma in_select_children_conv (conn : database) parent_id r :
  In r (moz_bookmarks conn) -> b_parent r = Some parent_id ->
  In (b_id r, b_type r, b_title r, joined_url conn r)
     (select_children conn parent_id).
Proof.
  intros Hin Hp. unfold select_children.
  apply (in_map (fun r => (b_id r, b_type r, b_title r, joined_url conn r))).
  apply in_order_by_position_conv, List.filter_In. split; [exact Hin|].
  unfold has_parent. rewrite Hp. apply Z.eqb_refl.
Qed.

End BuilderTermination.

Section BuilderBounds.
Import ExportToSafari ExportDocument.

(** X14.  On a store without parent cycles (every folder row ranks
    strictly below its parent) [get_children] returns as soon as the depth
    bound exceeds the rank of the parent, and a larger bound gives the same
    result. *)
Theorem X14_returns_on_ranked_store uuid4 conn rank depth parent_id n :
  ranked conn rank -> (rank parent_id < depth)%nat ->
  exists r, forall depth', (depth <= depth')%nat ->
    get_children uuid4 conn depth' parent_id n = Ok r.
Proof.
  intros Hrank Hlt.
  destruct (get_children_returns uuid4 conn rank Hrank depth parent_id n Hlt)
    as [r Hr].
  exists r. intros depth' Hle. exact (get_children_mono uuid4 conn _ _ Hle _ _ _ Hr).
Qed.

Lemma sample_store_ranked : ranked sample_store sample_rank.
Proof.
  intros r p Hin Hp Hty. cbn in Hin.
  repeat (destruct Hin as [<-|Hin];
          [cbn in Hp, Hty |- *; first [discriminate Hty
             | injection Hp as <-; vm_compute; lia]|]).
  destruct Hin.
Qed.

Lemma X14_returns_on_ranked_store_witness :
  exists r, forall depth', (3 <= depth')%nat ->
    get_children sample_uuid4 sample_store depth' 1 0 = Ok r.
Proof.
  apply (X14_returns_on_ranked_store sample_uuid4 sample_store sample_rank 3 1 0).
  - exact sample_store_ranked.
  - vm_compute. lia.
Defined.

(** X15.  A folder row that is its own parent makes [get_children] on that
    parent raise [RecursionError], whatever the depth bound: the call
    never returns a tree. *)
Theorem X15_self_parent_never_returns uuid4 conn r depth n :
  In r (moz_bookmarks conn) ->
  type_is (b_type r) 2 = true ->
  b_parent r = Some (b_id r) ->
  get_children uuid4 conn depth (b_id r) n = Raise RecursionError.
Proof.
  intros Hin Hty Hp. revert n. induction depth as [|depth IH]; intros n;
    [reflexivity|].
  cbn [get_children].
  apply (emit_rows_raises uuid4 _ (b_id r) (b_type r) (b_title r)
           (joined_url conn r)); try assumption.
  - apply get_children_raises_only.
  - now apply in_select_children_conv.
Qed.

Lemma X15_self_parent_never_returns_witness :
  get_children sample_uuid4 looping_store 40 (b_id (row 7 2 "loop" None 7 0)) 0
  = Raise RecursionError.
Proof.
  apply (X15_self_parent_never_returns sample_uuid4 looping_store
           (row 7 2 "loop" None 7 0) 40 0); [now left|reflexivity..].
Defined.

End BuilderBounds.

Section ExportAndRepair.
Import ExportToSafari ExportDocument.

Lemma flatten_list_dict (d : dict) cs :
  is_list_type d = true ->
  dict_get d "Children" = Some (VList cs) ->
  flatten_nested_folders (VDict d) =
  out ← for_each (flatten_child flatten_nested_folders (title_of d)) cs;
  Ok (VDict (dict_set d "Children" (VList out))).
Proof.
  intros Hty Hget. rewrite flatten_nested_folders_eq. cbn [flatten_body].
  rewrite Hty. unfold dict_get_default. rewrite Hget. reflexivity.
Qed.

(** The flattener on an exported document: the two sections stay, the
    content of BookmarksBar is normalized. *)
Lemma flatten_envelope uuid4 (forest : list node) n :
  flatten_nested_folders (envelope uuid4 (map encode forest) n) =
  Ok (envelope uuid4
        (map encode (flat_map (splice normalize "BookmarksBar") forest)) n).
Proof.
  unfold envelope.
  change (VDict [("WebBookmarkType", TYPE_LIST); ("Title", VStr "BookmarksBar");
                 ("WebBookmarkUUID", VStr (uuid4 (S n)));
                 ("Children", VList (map encode forest))])
    with (encode (Folder "BookmarksBar" (uuid4 (S n)) forest)).
  change (VDict [("WebBookmarkType", TYPE_LIST); ("Title", VStr "BookmarksMenu");
                 ("WebBookmarkUUID", VStr (uuid4 (S (S n))));
                 ("Children", VList [])])
    with (encode (Folder "BookmarksMenu" (uuid4 (S (S n))) [])).
  erewrite flatten_list_dict; [|reflexivity..].
  change (title_of _) with (VStr "").
  cbn [for_each]. rewrite !flatten_child_folder.
  change (String.eqb "BookmarksBar" "") with false.
  change (String.eqb "BookmarksMenu" "") with false. cbv iota.
  unfold one. rewrite !flatten_on_trees. reflexivity.
Qed.

Lemma bookmarks_normalized_forest t (forest : list node) :
  forest_bookmarks (map encode (flat_map (splice normalize t) forest)) =
  forest_bookmarks (map encode forest).
Proof.
  pose proof (flatten_on_trees (Folder t "" forest)) as Hfl.
  apply flatten_framed in Hfl as [_ Hleaf]. cbn [normalize] in Hleaf.
  rewrite !preorder_folder in Hleaf. cbn [List.filter] in Hleaf.
  change (is_leaf _) with false in Hleaf. exact Hleaf.
Qed.

(** X16.  Export, then repair.  On the document written by the export
    script [flatten_nested_folders] raises nothing and returns a document
    with the same envelope (the root and the sections BookmarksBar and
    BookmarksMenu, with their identifiers, the menu empty); the bookmarks
    under BookmarksBar are the same, in the same order, and their number is
    the first count reported by the export. *)
Theorem X16_repair_of_exported_document uuid4 conn depth b f doc :
  export uuid4 conn depth = Ok (b, f, doc) ->
  exists items items' n,
    doc = envelope uuid4 items n /\
    flatten_nested_folders doc = Ok (envelope uuid4 items' n) /\
    forest_bookmarks items' = forest_bookmarks items /\
    b = length (forest_bookmarks items).
Proof.
  unfold export. destruct (root conn) as [r|e]; cbn [mbind result_bind];
    [|discriminate].
  destruct (get_children uuid4 conn depth r 0) as [[items n]|e] eqn:Hbuilt;
    cbn [mbind result_bind]; [|discriminate].
  destruct (get_children_built uuid4 conn depth _ _ _ _ Hbuilt)
    as (forest & -> & _).
  rewrite cnt_eq. unfold cnt_body. cbn [py_iter mbind result_bind].
  rewrite cnt_loop_forest. cbn [mbind result_bind]. intros [= <- <- <-].
  exists (map encode forest),
         (map encode (flat_map (splice normalize "BookmarksBar") forest)), n.
  split; [reflexivity|]. split; [apply flatten_envelope|].
  split; [apply bookmarks_normalized_forest|].
  now rewrite bookmarks_of_forest.
Qed.

Lemma X16_repair_of_exported_document_witness :
  exists b f doc items items' n,
    export sample_uuid4 sample_store 5 = Ok (b, f, doc) /\
    doc = envelope sample_uuid4 items n /\
    flatten_nested_folders doc = Ok (envelope sample_uuid4 items' n) /\
    forest_bookmarks items' = forest_bookmarks items /\
    b = length (forest_bookmarks items).
Proof.
  eexists _, _, _.
  destruct (X16_repair_of_exported_document sample_uuid4 sample_store 5
              _ _ _ eq_refl) as (items & items' & n & H).
  exists items, items', n. split; [reflexivity|exact H].
Defined.

End ExportAndRepair.

Section CntErrors.
Import ExportToSafari.

Lemma cnt_loop_app_forest (forest : list node) (rest : list value) :
  forall b f,
    cnt_loop cnt (map encode forest ++ rest) b f =
    cnt_loop cnt rest (b + list_sum (map bookmark_count forest))%nat
                      (f + list_sum (map folder_count forest))%nat.
Proof.
  induction forest as [|t forest IH]; intros b f.
  - cbn. now rewrite !Nat.add_0_r.
  - cbn [map app]. rewrite cnt_loop_node, IH, !list_sum_cons.
    f_equal; lia.
Qed.

(** X17.  [cnt] stops at the first item it cannot read: after any number
    of well-formed nodes, an item that is not a dict raises [TypeError]
    and a dict without a [WebBookmarkType] entry raises [KeyError],
    whatever follows. *)
Theorem X17_cnt_stops_at_bad_item
    (forest : list node) (item : value) (rest : list value) :
  is_dict item = false \/
  (exists d, item = VDict d /\ dict_get d "WebBookmarkType" = None) ->
  cnt (VList (map encode forest ++ item :: rest)) =
  Raise (if is_dict item then KeyError else TypeError).
Proof.
  intros Hbad. rewrite cnt_eq. unfold cnt_body.
  cbn [py_iter mbind result_bind]. rewrite cnt_loop_app_forest.
  destruct Hbad as [Hnd|(d & -> & Hty)].
  - rewrite Hnd. destruct item; try reflexivity. discriminate.
  - cbn [cnt_loop is_dict]. now rewrite Hty.
Qed.

Lemma X17_cnt_stops_at_bad_item_witness :
  cnt (VList (map encode sample_forest ++
              VDict [("Title", VStr "no type")] :: [VInt 7])) =
  Raise KeyError.
Proof.
  apply (X17_cnt_stops_at_bad_item sample_forest
           (VDict [("Title", VStr "no type")]) [VInt 7]).
  right. eexists. split; reflexivity.
Defined.

End CntErrors.
